(** * Benchmark comparison report: a model of [scripts/compare-benchmarks.py]

    The script loads two JSON documents of benchmark results, pairs the
    benchmarks by name, classifies each pair against a percentage threshold
    and renders a markdown report.  The definitions below follow the Python
    source function by function and keep its names.

    - Values are the ones [json.load] builds; a dict is a finite map with
      string keys.
    - Numbers are Python's: unbounded ints and binary64 floats, with the
      conversions, the correctly rounded int/int quotient and the exact
      int/float comparisons of the language.
    - A function returns [Ok], raises ([Raise]) or leaves the modelled
      fragment ([Unmodelled]).
    - The order in which a set of strings is iterated is a parameter
      ([set_order]); the file system, the standard output and the
      encodings of the locale are a record ([world]); [json.load] on the
      content of a file is a parameter ([json_load]).
    - String literals are the bytes of the source file.
    - Left out: the parsing of the command line (the arguments are a
      record), failures of the standard output other than its encoding, and
      failures of a write once the file is open, other than the encoding of
      the text. *)

From Stdlib Require Import ZArith Ascii String SpecFloat.
From stdpp Require Import gmap strings list sorting pretty.

#[local] Set Warnings "-register-all".

(** ** Exceptions and outcomes *)

(** The exceptions the script can meet.  [SystemExit] carries the code
    passed to [sys.exit]. *)
Inductive exn : Type :=
  | FileNotFoundError
  | PermissionError
  | IsADirectoryError
  | NotADirectoryError
  | OSError
  | UnicodeDecodeError
  | UnicodeEncodeError
  | JSONDecodeError
  | ValueError
  | RecursionError
  | KeyError
  | TypeError
  | AttributeError
  | OverflowError
  | ZeroDivisionError
  | SystemExit (code : Z).

(** An evaluation either returns, raises, or leaves the fragment of Python
    covered here ([Unmodelled]: benchmark names that are numbers, booleans
    or [None], which Python hashes and files as dict keys; and [str()] of
    floats and containers). *)
Inductive outcome (A : Type) : Type :=
  | Ok (a : A)
  | Raise (e : exn)
  | Unmodelled.
Arguments Ok {A} a.
Arguments Raise {A} e.
Arguments Unmodelled {A}.

#[export] Instance outcome_ret : MRet outcome := @Ok.
#[export] Instance outcome_bind : MBind outcome := λ A B k m,
  match m with
  | Ok a => k a
  | Raise e => Raise e
  | Unmodelled => Unmodelled
  end.

(** [for x in l: ys.append(f(x))], stopping at the first exception. *)
Fixpoint for_each {A B} (f : A → outcome B) (l : list A) : outcome (list B) :=
  match l with
  | [] => Ok []
  | x :: l' => y ← f x; ys ← for_each f l'; Ok (y :: ys)
  end.

(** ** Python numbers

    A JSON number is loaded as an [int] (unbounded) or as a [float]
    (IEEE 754 binary64, round to nearest even). *)

Abbreviation float := spec_float.

Inductive number : Type :=
  | PInt (z : Z)
  | PFloat (f : float).

Definition f64_add : float → float → float := SFadd 53 1024.
Definition f64_sub : float → float → float := SFsub 53 1024.
Definition f64_mul : float → float → float := SFmul 53 1024.
Definition f64_div : float → float → float := SFdiv 53 1024.
Definition f64_of_Z (z : Z) : float := binary_normalize 53 1024 z 0 false.

(** The float literals of the source. *)
Definition f1e9 : float := Eval vm_compute in f64_of_Z (10 ^ 9).
Definition f1e6 : float := Eval vm_compute in f64_of_Z (10 ^ 6).
Definition f1e3 : float := Eval vm_compute in f64_of_Z (10 ^ 3).
Definition f10 : float := Eval vm_compute in f64_of_Z 10.

(** [float(z)]: an int beyond the float range raises. *)
Definition int_to_float (z : Z) : outcome float :=
  match f64_of_Z z with
  | S754_infinity _ => Raise OverflowError
  | f => Ok f
  end.

Definition to_float (x : number) : outcome float :=
  match x with
  | PInt z => int_to_float z
  | PFloat f => Ok f
  end.

(** An int as an exact mantissa with exponent 0, the operand form of the
    correctly rounded int/int division. *)
Definition exact_Z (z : Z) : float :=
  match z with
  | Z0 => S754_zero false
  | Zpos p => S754_finite false p 0
  | Zneg p => S754_finite true p 0
  end.

Definition f64_is_zero (f : float) : bool :=
  match f with
  | S754_zero _ => true
  | _ => false
  end.

(** [a / b] on two ints: the float nearest to the exact quotient. *)
Definition int_truediv (a b : Z) : outcome float :=
  if (b =? 0)%Z then Raise ZeroDivisionError
  else match f64_div (exact_Z a) (exact_Z b) with
       | S754_infinity _ => Raise OverflowError
       | q => Ok q
       end.

Definition float_truediv (x y : float) : outcome float :=
  if f64_is_zero y then Raise ZeroDivisionError else Ok (f64_div x y).

Definition num_sub (x y : number) : outcome number :=
  match x, y with
  | PInt a, PInt b => Ok (PInt (a - b))
  | _, _ => a ← to_float x; b ← to_float y; Ok (PFloat (f64_sub a b))
  end.

Definition num_mul (x y : number) : outcome number :=
  match x, y with
  | PInt a, PInt b => Ok (PInt (a * b))
  | _, _ => a ← to_float x; b ← to_float y; Ok (PFloat (f64_mul a b))
  end.

Definition num_truediv (x y : number) : outcome number :=
  match x, y with
  | PInt a, PInt b => q ← int_truediv a b; Ok (PFloat q)
  | _, _ => a ← to_float x; b ← to_float y; q ← float_truediv a b; Ok (PFloat q)
  end.

(** Comparison of an int with a float is exact (no conversion). *)
Definition Z_compare_float (a : Z) (y : float) : option comparison :=
  match y with
  | S754_nan => None
  | S754_infinity s => Some (if s then Gt else Lt)
  | S754_zero _ => Some (a ?= 0)%Z
  | S754_finite s m e =>
      let v := cond_Zopp s (Zpos m) in
      Some match e with
           | Zneg k => (a * 2 ^ Zpos k ?= v)%Z
           | _ => (a ?= v * 2 ^ e)%Z
           end
  end.

Definition num_compare (x y : number) : option comparison :=
  match x, y with
  | PInt a, PInt b => Some (a ?= b)%Z
  | PFloat a, PFloat b => SFcompare a b
  | PInt a, PFloat b => Z_compare_float a b
  | PFloat a, PInt b => CompOpp <$> Z_compare_float b a
  end.

Definition num_eqb (x y : number) : bool :=
  match num_compare x y with Some Eq => true | _ => false end.
Definition num_ltb (x y : number) : bool :=
  match num_compare x y with Some Lt => true | _ => false end.
Definition num_gtb (x y : number) : bool :=
  match num_compare x y with Some Gt => true | _ => false end.
Definition num_geb (x y : number) : bool :=
  match num_compare x y with Some (Gt | Eq) => true | _ => false end.

(** ** Fixed-point formatting: the format specs [.Nf] and [+.Nf] *)

(** [n / d] rounded to the nearest integer, ties to even. *)
Definition round_half_even (n d : Z) : Z :=
  let q := (n / d)%Z in
  match (2 * (n mod d) ?= d)%Z with
  | Lt => q
  | Gt => (q + 1)%Z
  | Eq => if Z.even q then q else (q + 1)%Z
  end.

(** [m * 2^e * 10^p], rounded: the digits of the float at [p] decimals. *)
Definition scaled (p : nat) (m : positive) (e : Z) : Z :=
  match e with
  | Zneg k => round_half_even (Zpos m * 10 ^ Z.of_nat p) (2 ^ Zpos k)
  | _ => (Zpos m * 2 ^ e * 10 ^ Z.of_nat p)%Z
  end.

Fixpoint zeros (k : nat) : string :=
  match k with
  | O => ""
  | S k' => String "0"%char (zeros k')
  end.

Definition zero_pad (w : nat) (s : string) : string :=
  zeros (w - String.length s) +:+ s.

(** Decimal rendering of [n] hundredths, tenths or units ([p] = 2, 1, 0). *)
Definition fixed (p : nat) (n : Z) : string :=
  let int_part := pretty (Z.to_N (n / 10 ^ Z.of_nat p)) in
  match p with
  | O => int_part
  | _ => int_part +:+ "." +:+ zero_pad p (pretty (Z.to_N (n mod 10 ^ Z.of_nat p)))
  end.

Definition sign_prefix (plus neg : bool) : string :=
  if neg then "-" else if plus then "+" else "".

Definition format_float (plus : bool) (p : nat) (x : float) : string :=
  match x with
  | S754_nan => sign_prefix plus false +:+ "nan"
  | S754_infinity s => sign_prefix plus s +:+ "inf"
  | S754_zero s => sign_prefix plus s +:+ fixed p 0
  | S754_finite s m e => sign_prefix plus s +:+ fixed p (scaled p m e)
  end.

(** An int is converted to float before it is formatted with [f]. *)
Definition format_number (plus : bool) (p : nat) (x : number) : outcome string :=
  f ← to_float x; Ok (format_float plus p f).

(** ** JSON documents as Python values

    What [json.load] returns: [None], [bool], [int], [float], [str], [list]
    and [dict] with string keys.  Strings are their UTF-8 bytes; comparing
    them byte by byte agrees with Python's comparison by code point. *)

Inductive json : Type :=
  | JNull
  | JBool (b : bool)
  | JInt (z : Z)
  | JFloat (f : float)
  | JStr (s : string)
  | JArr (l : list json)
  | JObj (d : gmap string json).

(** The numbers among the values; [bool] is a subclass of [int]. *)
Definition as_number (v : json) : option number :=
  match v with
  | JBool b => Some (PInt (if b then 1 else 0))
  | JInt z => Some (PInt z)
  | JFloat f => Some (PFloat f)
  | _ => None
  end.

(** An operand of [-], [/] or [>=]: anything but a number is a [TypeError]. *)
Definition operand (v : json) : outcome number :=
  match as_number v with
  | Some n => Ok n
  | None => Raise TypeError
  end.

(** [v == 0] never raises; it is false on a value that is not a number. *)
Definition py_eq_zero (v : json) : bool :=
  match as_number v with
  | Some n => num_eqb n (PInt 0)
  | None => false
  end.

(** [o.get(key, dflt)]: only a dict has the method. *)
Definition py_get (o : json) (key : string) (dflt : json) : outcome json :=
  match o with
  | JObj d => Ok (default dflt (d !! key))
  | _ => Raise AttributeError
  end.

(** [b['name']]. *)
Definition subscript_name (b : json) : outcome json :=
  match b with
  | JObj d =>
      match d !! "name" with
      | Some v => Ok v
      | None => Raise KeyError
      end
  | _ => Raise TypeError
  end.

(** A value used as a dict key: lists and dicts are unhashable; keys other
    than strings are hashable in Python and left out of this model. *)
Definition dict_key (v : json) : outcome string :=
  match v with
  | JStr s => Ok s
  | JArr _ | JObj _ => Raise TypeError
  | _ => Unmodelled
  end.

(** [for b in v]: a list yields its items, a string its characters, a dict
    its keys; the other values are not iterable. *)
Definition py_iter (v : json) : outcome (list json) :=
  match v with
  | JArr l => Ok l
  | JStr s => Ok ((λ c, JStr (String c "")) <$> list_ascii_of_string s)
  | JObj d => Ok (JStr <$> elements (dom d))
  | _ => Raise TypeError
  end.

(** ** [calculate_change] *)

Definition calculate_change (baseline current : json) : outcome number :=
  if py_eq_zero baseline then Ok (PInt 0)
  else
    c ← operand current;
    b ← operand baseline;
    d ← num_sub c b;
    q ← num_truediv d b;
    num_mul q (PInt 100).

(** ** [format_duration] and [format_throughput] *)

Definition format_duration (ns : json) : outcome string :=
  n ← operand ns;
  if num_geb n (PFloat f1e9) then
    q ← num_truediv n (PFloat f1e9); s ← format_number false 2 q; Ok (s +:+ "s")
  else if num_geb n (PFloat f1e6) then
    q ← num_truediv n (PFloat f1e6); s ← format_number false 2 q; Ok (s +:+ "ms")
  else if num_geb n (PFloat f1e3) then
    q ← num_truediv n (PFloat f1e3); s ← format_number false 2 q; Ok (s +:+ "Âµs")
  else
    s ← format_number false 0 n; Ok (s +:+ "ns").

Definition format_throughput (ops : json) : outcome string :=
  n ← operand ops;
  if num_geb n (PFloat f1e9) then
    q ← num_truediv n (PFloat f1e9); s ← format_number false 2 q; Ok (s +:+ "G ops/s")
  else if num_geb n (PFloat f1e6) then
    q ← num_truediv n (PFloat f1e6); s ← format_number false 2 q; Ok (s +:+ "M ops/s")
  else if num_geb n (PFloat f1e3) then
    q ← num_truediv n (PFloat f1e3); s ← format_number false 2 q; Ok (s +:+ "K ops/s")
  else
    s ← format_number false 0 n; Ok (s +:+ " ops/s").

(** ** [compare_benchmarks] *)

Inductive status_t : Type :=
  | regression
  | improvement
  | unchanged
  | new
  | removed.

#[export] Instance status_eq_dec : EqDecision status_t.
Proof. solve_decision. Defined.

(** The dict appended to [comparisons]; an absent reference is [None]. *)
Record comparison : Type := Comparison {
  name : string;
  status : status_t;
  baseline : json;
  current : json;
  change_percent : number;
}.

(** [{b['name']: b for b in l}], filled from left to right: a later entry
    replaces an earlier one of the same name. *)
Fixpoint by_name (l : list json) (acc : gmap string json) : outcome (gmap string json) :=
  match l with
  | [] => Ok acc
  | b :: l' => v ← subscript_name b; k ← dict_key v; by_name l' (<[k := b]> acc)
  end.

(** [{b['name']: b for b in doc.get('benchmarks', [])}]. *)
Definition benchmarks_by_name (doc : json) : outcome (gmap string json) :=
  v ← py_get doc "benchmarks" (JArr []);
  l ← py_iter v;
  by_name l ∅.

(** [d.get(name)]: [None] when the key is missing. *)
Definition get_or_none (d : gmap string json) (k : string) : json :=
  default JNull (d !! k).

Definition is_none (v : json) : bool :=
  match v with
  | JNull => true
  | _ => false
  end.

(** The [if change > threshold ... elif change < -threshold ... else] chain. *)
Definition classify (change : number) (threshold : float) : status_t :=
  if num_gtb change (PFloat threshold) then regression
  else if num_ltb change (PFloat (SFopp threshold)) then improvement
  else unchanged.

(** The body of the loop over the sorted names. *)
Definition compare_name (baseline_benchmarks current_benchmarks : gmap string json)
    (threshold : float) (n : string) : outcome comparison :=
  let base := get_or_none baseline_benchmarks n in
  let curr := get_or_none current_benchmarks n in
  if is_none base then
    Ok {| name := n; status := new; baseline := JNull; current := curr;
          change_percent := PInt 0 |}
  else if is_none curr then
    Ok {| name := n; status := removed; baseline := base; current := JNull;
          change_percent := PInt 0 |}
  else
    base_mean ← py_get base "mean_ns" (JInt 0);
    curr_mean ← py_get curr "mean_ns" (JInt 0);
    change ← calculate_change base_mean curr_mean;
    Ok {| name := n; status := classify change threshold; baseline := base;
          current := curr; change_percent := change |}.

(** [sorted] on strings. *)
Definition sorted (l : list string) : list string := merge_sort String.le l.

(** A Python [set] of strings is iterated in an order that depends on the
    string hashes, which change from one process to the next: the order is
    a parameter, [set_order X] being some enumeration of [X]. *)
Definition enumerates (set_order : gset string → list string) : Prop :=
  ∀ X, set_order X ≡ₚ elements X.

Definition compare_benchmarks (set_order : gset string → list string)
    (baseline current : json) (threshold : float) : outcome (list comparison) :=
  baseline_benchmarks ← benchmarks_by_name baseline;
  current_benchmarks ← benchmarks_by_name current;
  let all_names := dom baseline_benchmarks ∪ dom current_benchmarks in
  for_each (compare_name baseline_benchmarks current_benchmarks threshold)
           (sorted (set_order all_names)).

(** ** [generate_markdown] *)

Definition nl : string := String "010"%char "".

(** The limit of the conversion of an int to a string
    ([sys.int_info.default_max_str_digits], CPython 3.11 and later): an
    int of more decimal digits raises [ValueError]. *)
Definition max_str_digits : Z := 4300.
Definition int_str_bound : Z := 10 ^ max_str_digits.

(** [str(v)] inside an f-string, for the values whose rendering is plain. *)
Definition py_str (v : json) : outcome string :=
  match v with
  | JStr s => Ok s
  | JNull => Ok "None"
  | JBool b => Ok (if b then "True" else "False")
  | JInt z => if (Z.abs z <? int_str_bound)%Z then Ok (pretty z) else Raise ValueError
  | _ => Unmodelled
  end.

Definition with_status (st : status_t) (comparisons : list comparison) : list comparison :=
  filter (λ c, status c = st) comparisons.

(** A line appended under [if xs:]. *)
Definition if_nonempty {A} (xs : list A) (line : string) : list string :=
  match xs with
  | [] => []
  | _ => [line]
  end.

(** The count lines of the summary. *)
Definition regressions_line (k : nat) : string :=
  "ğŸ”´ **" +:+ pretty k +:+ " regressions detected**".
Definition improvements_line (k : nat) : string :=
  "ğŸŸ¢ **" +:+ pretty k +:+ " improvements**".
Definition unchanged_line (k : nat) : string :=
  "âšª " +:+ pretty k +:+ " unchanged".
Definition new_line (k : nat) : string :=
  "ğŸ†• " +:+ pretty k +:+ " new benchmarks".

Definition summary_lines (comparisons : list comparison) : list string :=
  let regressions := with_status regression comparisons in
  let improvements := with_status improvement comparisons in
  let unchanged_ := with_status unchanged comparisons in
  let new_benchmarks := with_status new comparisons in
  if_nonempty regressions (regressions_line (length regressions)) ++
  if_nonempty improvements (improvements_line (length improvements)) ++
  [unchanged_line (length unchanged_)] ++
  if_nonempty new_benchmarks (new_line (length new_benchmarks)).

(** One row of the detail table. *)
Definition detail_row (c : comparison) : outcome string :=
  match status c with
  | new =>
      curr_mean ← py_get (current c) "mean_ns" (JInt 0);
      d ← format_duration curr_mean;
      Ok ("| " +:+ name c +:+ " | - | " +:+ d +:+ " | ğŸ†• NEW |")
  | removed =>
      base_mean ← py_get (baseline c) "mean_ns" (JInt 0);
      d ← format_duration base_mean;
      Ok ("| " +:+ name c +:+ " | " +:+ d +:+ " | - | âŒ REMOVED |")
  | st =>
      base_mean ← py_get (baseline c) "mean_ns" (JInt 0);
      curr_mean ← py_get (current c) "mean_ns" (JInt 0);
      let change := change_percent c in
      annotation ←
        match st with
        | regression =>
            s ← format_number false 1 change; Ok ("+" +:+ s +:+ "%", "ğŸ”´ REGRESSION")
        | improvement =>
            s ← format_number false 1 change; Ok (s +:+ "%", "ğŸŸ¢")
        | _ =>
            s ← format_number true 1 change; Ok (s +:+ "%", "")
        end;
      b ← format_duration base_mean;
      cu ← format_duration curr_mean;
      Ok ("| " +:+ name c +:+ " | " +:+ b +:+ " | " +:+ cu +:+ " | " +:+
          annotation.1 +:+ " " +:+ annotation.2 +:+ " |")
  end.

(** [f"- {label}: {info.get('version', 'unknown')} @ {info.get('timestamp', 'unknown')}"]. *)
Definition run_line (label : string) (info : json) : outcome string :=
  v ← py_get info "version" (JStr "unknown");
  vs ← py_str v;
  t ← py_get info "timestamp" (JStr "unknown");
  ts ← py_str t;
  Ok ("- " +:+ label +:+ ": " +:+ vs +:+ " @ " +:+ ts).

Definition table_header : list string :=
  ["### Details"; "";
   "| Benchmark | Baseline | Current | Change |";
   "|-----------|----------|---------|--------|"].

Definition run_information (bl cl : string) : list string :=
  ["<details>"; "<summary>Run Information</summary>"; ""; bl; cl; "";
   "</details>"].

(** The list [lines] at the [return] statement. *)
Definition report_lines (comparisons : list comparison)
    (baseline_info current_info : json) : outcome (list string) :=
  rows ← for_each detail_row comparisons;
  bl ← run_line "Baseline" baseline_info;
  cl ← run_line "Current" current_info;
  Ok (["### Summary"; ""] ++ summary_lines comparisons ++ [""] ++
      table_header ++ rows ++ [""] ++ run_information bl cl).

Definition generate_markdown (comparisons : list comparison)
    (baseline_info current_info : json) : outcome string :=
  lines ← report_lines comparisons baseline_info current_info;
  Ok (String.concat nl lines).

(** ** The environment of the script *)

(** The [OSError]s of [open], by the exception Python makes of them. *)
Inductive os_error : Type :=
  | ENOENT
  | EACCES
  | EISDIR
  | ENOTDIR
  | EOTHER.

Definition os_exn (e : os_error) : exn :=
  match e with
  | ENOENT => FileNotFoundError
  | EACCES => PermissionError
  | EISDIR => IsADirectoryError
  | ENOTDIR => NotADirectoryError
  | EOTHER => OSError
  end.

(** What is at a place of the file system: its content, and the error with
    which [open] fails there, for reading and for writing, if it does. *)
Record node : Type := Node {
  content : string;
  read_error : option os_error;
  write_error : option os_error;
}.

(** A regular file that may be read and written; a file that may only be
    read; a file that may not be opened; a directory; a path through a
    directory that is not there. *)
Definition File (text : string) : node := Node text None None.
Definition ReadOnly (text : string) : node := Node text None (Some EACCES).
Definition Denied : node := Node "" (Some EACCES) (Some EACCES).
Definition Directory : node := Node "" (Some EISDIR) (Some EISDIR).
Definition NoDirectory : node := Node "" (Some ENOENT) (Some ENOENT).

(** Two paths may name one file (['base.json'] and ['./base.json'], links):
    [locate] gives the place a path leads to, and [fs] holds what is at
    each place; a place that [fs] leaves out holds nothing, and a file can
    be created there.  [file_encodes] and [stdout_encodes] tell whether the
    encoding of the locale, used by [open] in text mode, and the encoding of
    the standard output can encode a text.  [stdout] lists the texts
    printed, one per call of [print]. *)
Record world : Type := World {
  locate : string → string;
  fs : gmap string node;
  stdout : list string;
  file_encodes : string → bool;
  stdout_encodes : string → bool;
}.

Definition set_fs (files : gmap string node) (w : world) : world :=
  {| locate := locate w; fs := files; stdout := stdout w;
     file_encodes := file_encodes w; stdout_encodes := stdout_encodes w |}.

Definition set_stdout (printed : list string) (w : world) : world :=
  {| locate := locate w; fs := fs w; stdout := printed;
     file_encodes := file_encodes w; stdout_encodes := stdout_encodes w |}.

(** A statement that acts on the world and then returns or raises; the next
    statement runs only if it returns. *)
Definition and_then {A B} (m : world * outcome A)
    (k : A → world → world * outcome B) : world * outcome B :=
  match m with
  | (w, Ok a) => k a w
  | (w, Raise e) => (w, Raise e)
  | (w, Unmodelled) => (w, Unmodelled)
  end.

Record args_t : Type := Args {
  args_baseline : string;
  args_current : string;
  args_output : string;
  args_threshold : float;
  args_fail_on_regression : bool;
}.

(** [print(line)]: the text is encoded before anything is written. *)
Definition print (line : string) (w : world) : world * outcome unit :=
  if stdout_encodes w line then (set_stdout (stdout w ++ [line]) w, Ok ())
  else (w, Raise UnicodeEncodeError).

(** [with open(path, 'w') as f: f.write(text)].  [open] creates the file or
    empties it; [write] then encodes the text, and a text that cannot be
    encoded leaves the file empty. *)
Definition write_file (path text : string) (w : world) : world * outcome unit :=
  let place := locate w path in
  let old := fs w !! place in
  match old ≫= write_error with
  | Some e => (w, Raise (os_exn e))
  | None =>
      let r := old ≫= read_error in
      if file_encodes w text then
        (set_fs (<[place := Node text r None]> (fs w)) w, Ok ())
      else
        (set_fs (<[place := Node "" r None]> (fs w)) w, Raise UnicodeEncodeError)
  end.

(** ** [load_results] and [main] *)

(** The line printed for a regression whose change renders as [pct]. *)
Definition regression_line (r : comparison) (pct : string) : string :=
  "  - " +:+ name r +:+ ": +" +:+ pct +:+ "%".

(** The two fixed lines [main] prints. *)
Definition written_line (args : args_t) : string :=
  "Comparison report written to " +:+ args_output args.

(** The loop printing one line per regression. *)
Fixpoint print_regressions (rs : list comparison) (w : world) : world * outcome unit :=
  match rs with
  | [] => (w, Ok ())
  | r :: rs' =>
      match format_number false 1 (change_percent r) with
      | Ok s =>
          and_then (print (regression_line r s) w) (λ _ w', print_regressions rs' w')
      | Raise e => (w, Raise e)
      | Unmodelled => (w, Unmodelled)
      end
  end.

(** [f"\n... {len(regressions)} regressions detected!"]. *)
Definition detected_line (k : nat) : string :=
  nl +:+ "âš ï¸  " +:+ pretty k +:+ " regressions detected!".

(** The ways [json.load] fails on the content of a file: bytes that are not
    text in the encoding of the locale, text that is not JSON, an int
    literal beyond the limit of the conversion, brackets nested too
    deeply. *)
Inductive load_failure : Type :=
  | NotText
  | NotJSON
  | IntTooLong
  | TooDeep.

Definition load_exn (f : load_failure) : exn :=
  match f with
  | NotText => UnicodeDecodeError
  | NotJSON => JSONDecodeError
  | IntTooLong => ValueError
  | TooDeep => RecursionError
  end.

Section Script.
(** [json.load] on the content of a file. *)
Variable json_load : string → load_failure + json.
Variable set_order : gset string → list string.

(** [with open(path, 'r') as f: return json.load(f)]. *)
Definition load_results (w : world) (path : string) : outcome json :=
  match fs w !! locate w path with
  | None => Raise FileNotFoundError
  | Some n =>
      match read_error n with
      | Some e => Raise (os_exn e)
      | None =>
          match json_load (content n) with
          | inl f => Raise (load_exn f)
          | inr v => Ok v
          end
      end
  end.

(** Everything up to the rendered report; nothing is written before. *)
Definition prepare (args : args_t) (w : world) : outcome (list comparison * string) :=
  baseline ← load_results w (args_baseline args);
  current ← load_results w (args_current args);
  comparisons ← compare_benchmarks set_order baseline current (args_threshold args);
  report ← generate_markdown comparisons baseline current;
  Ok (comparisons, report).

Definition main (args : args_t) (w : world) : world * outcome unit :=
  match prepare args w with
  | Raise e => (w, Raise e)
  | Unmodelled => (w, Unmodelled)
  | Ok (comparisons, report) =>
      and_then (write_file (args_output args) report w) (λ _ w1,
      and_then (print (written_line args) w1) (λ _ w2,
      let regressions := with_status regression comparisons in
      if bool_decide (regressions ≠ []) && args_fail_on_regression args then
        and_then (print (detected_line (length regressions)) w2) (λ _ w3,
        and_then (print_regressions regressions w3) (λ _ w4,
        (w4, Raise (SystemExit 1))))
      else (w2, Ok ())))
  end.
End Script.

(** The status the process ends with: an uncaught exception ends it with 1. *)
Definition exit_code (r : outcome unit) : option Z :=
  match r with
  | Ok _ => Some 0%Z
  | Raise (SystemExit c) => Some c
  | Raise _ => Some 1%Z
  | Unmodelled => None
  end.

(** ** Vocabulary of the statements *)

(** The name under which a benchmark entry is filed, if it has one. *)
Definition name_of (b : json) : option string :=
  match b with
  | JObj d =>
      match d !! "name" with
      | Some (JStr s) => Some s
      | _ => None
      end
  | _ => None
  end.

(** The entries of a run document: the list under ['benchmarks']. *)
Definition items (doc : json) : list json :=
  match doc with
  | JObj d =>
      match d !! "benchmarks" with
      | Some (JArr l) => l
      | _ => []
      end
  | _ => []
  end.

(** Last one wins: the entry of a run for a name is the last item filed
    under that name. *)
Definition entry (l : list json) (n : string) : option json :=
  last (filter (λ b, name_of b = Some n) l).

(** The ['mean_ns'] field of an entry, if it is there. *)
Definition mean_ns_field (b : json) : option json :=
  match b with
  | JObj d => d !! "mean_ns"
  | _ => None
  end.

(** [b.get('mean_ns', 0)] on an entry. *)
Definition mean_ns (b : json) : json :=
  match b with
  | JObj d => default (JInt 0) (d !! "mean_ns")
  | _ => JInt 0
  end.

(** The percentage of the specification,
    [((current - baseline) / baseline) * 100], in Python's arithmetic. *)
Definition percent_change (baseline current : number) : outcome number :=
  d ← num_sub current baseline;
  q ← num_truediv d baseline;
  num_mul q (PInt 100).

(** A threshold below zero. *)
Definition f64_negative (t : float) : bool :=
  match SFcompare t (S754_zero false) with
  | Some Lt => true
  | _ => false
  end.

(** The three-way classification as the specification words it. *)
Definition classified_as_stated (change : number) (t : float) (st : status_t) : Prop :=
  (st = regression ↔ num_gtb change (PFloat t) = true) ∧
  (st = improvement ↔ num_ltb change (PFloat (SFopp t)) = true) ∧
  (st = unchanged ↔
     num_gtb change (PFloat t) = false ∧ num_ltb change (PFloat (SFopp t)) = false).

Definition num_is_zero (x : number) : bool :=
  match x with
  | PInt z => (z =? 0)%Z
  | PFloat f => f64_is_zero f
  end.

(** The transform from the two documents and the threshold to the report
    text, as [main] chains it. *)
Definition render (set_order : gset string → list string)
    (bdoc cdoc : json) (threshold : float) : outcome string :=
  comparisons ← compare_benchmarks set_order bdoc cdoc threshold;
  generate_markdown comparisons bdoc cdoc.

(** The kinds of failure of the loader: the [OSError]s, and the errors of
    a content that is not a JSON text. *)
Definition io_error (e : exn) : Prop :=
  e = FileNotFoundError ∨ e = PermissionError ∨ e = IsADirectoryError ∨
  e = NotADirectoryError ∨ e = OSError.

Definition parse_error (e : exn) : Prop :=
  e = JSONDecodeError ∨ e = UnicodeDecodeError.

(** A content that is not well-formed: not text, or text that is not
    JSON. *)
Definition malformed (f : load_failure) : Prop := f = NotText ∨ f = NotJSON.

(** The path leads to nothing, or to something that cannot be read. *)
Definition unreadable (w : world) (path : string) : Prop :=
  match fs w !! locate w path with
  | None => True
  | Some n => is_Some (read_error n)
  end.

(** The path leads to a file that can be read and holds [text]. *)
Definition holds (w : world) (path text : string) : Prop :=
  ∃ n, fs w !! locate w path = Some n ∧ read_error n = None ∧ content n = text.

(** [open(path, 'w')] succeeds: nothing is there yet, or something that
    may be written. *)
Definition writable (w : world) (path : string) : Prop :=
  ∀ n, fs w !! locate w path = Some n → write_error n = None.

(** The calls of [print] for the lines of a list, one after the other. *)
Fixpoint print_lines (lines : list string) (w : world) : world * outcome unit :=
  match lines with
  | [] => (w, Ok ())
  | line :: rest => and_then (print line w) (λ _ w', print_lines rest w')
  end.

(** The lines [main] prints once the report is written, the regressions
    and their rendered percentages being given. *)
Definition script_lines (args : args_t) (regressions : list comparison)
    (pcts : list string) : list string :=
  written_line args ::
  (if bool_decide (regressions ≠ []) && args_fail_on_regression args
   then detected_line (length regressions) :: zip_with regression_line regressions pcts
   else []).

(** The content of the file a path leads to, if there is one. *)
Definition file_content (w : world) (path : string) : option string :=
  content <$> fs w !! locate w path.

Definition is_list (v : json) : Prop :=
  match v with
  | JArr _ => True
  | _ => False
  end.

(** The values under ['benchmarks'] the comparator iterates without
    meeting an entry: an empty list, an empty string, an empty dict. *)
Definition empty_iterable (v : json) : Prop :=
  v = JArr [] ∨ v = JStr "" ∨ v = JObj ∅.

Definition is_number (v : json) : Prop := is_Some (as_number v).

Definition is_float (v : json) : Prop :=
  match v with
  | JFloat _ => True
  | _ => False
  end.

(** Documents the comparator accepts: an object whose ['benchmarks'], when
    present, is a list of objects with a string ['name'] and a ['mean_ns']
    that is left out or satisfies [ok_mean]. *)
Definition mean_ok (ok_mean : json → Prop) (b : json) : Prop :=
  match mean_ns_field b with
  | None => True
  | Some v => ok_mean v
  end.

Definition well_formed (ok_mean : json → Prop) (doc : json) : Prop :=
  (∃ d, doc = JObj d ∧
        (d !! "benchmarks" = None ∨ ∃ l, d !! "benchmarks" = Some (JArr l))) ∧
  Forall (λ b, is_Some (name_of b) ∧ mean_ok ok_mean b) (items doc).

(** A document whose benchmarks can be filed by name: an object whose
    ['benchmarks'], when present, is a list of objects with a string
    ['name']. *)
Definition indexable (doc : json) : Prop := well_formed (λ _, True) doc.



(** An evaluation that raises nothing outside [P]. *)
Definition may_raise {A} (P : exn → Prop) (m : outcome A) : Prop :=
  match m with
  | Raise e => P e
  | _ => True
  end.

(** An evaluation that returns, or raises within [P]. *)
Definition returns_or_raises {A} (P : exn → Prop) (m : outcome A) : Prop :=
  match m with
  | Ok _ => True
  | Raise e => P e
  | Unmodelled => False
  end.

Definition overflow (e : exn) : Prop := e = OverflowError.

(** The exceptions of the comparator. *)
Definition comparator_exn (e : exn) : Prop :=
  e = AttributeError ∨ e = KeyError ∨ e = TypeError ∨ e = OverflowError.

(** ** Sample runs *)

Definition bench (n : string) (m : Z) : json :=
  JObj (list_to_map [("name", JStr n); ("mean_ns", JInt m)]).

(** Runs whose only benchmark lacks ['mean_ns']. *)
Definition bench_no_mean (n : string) : json :=
  JObj (list_to_map [("name", JStr n)]).

Definition run (version : string) (benchmarks : list json) : json :=
  JObj (list_to_map [("version", JStr version); ("benchmarks", JArr benchmarks)]).

Definition ex_baseline : json :=
  run "v1" [bench "parse" 1000000; bench "emit" 1500; bench "idle" 0;
            bench "gone" 999; bench "emit" 2000].

Definition ex_current : json :=
  run "v2" [bench "idle" 5; bench "parse" 1150000; bench "emit" 1500;
            bench "fresh" 3000000000].

(** A run with one benchmark. *)
Definition ex_single (m : Z) : json := run "v" [bench "steady" m].

(** A run whose means are a float and a missing field. *)
Definition ex_float_run : json :=
  run "v3" [JObj (list_to_map [("name", JStr "emit"); ("mean_ns", JFloat f1e3)]);
            bench_no_mean "idle"].

Definition f_minus10 : float := Eval vm_compute in SFopp f10.

Definition f_minus1 : float := Eval vm_compute in SFopp (f64_of_Z 1).

(** The records of a run of the comparator that returned. *)
Definition returned {A} (r : outcome (list A)) : list A :=
  match r with
  | Ok l => l
  | _ => []
  end.

Definition ex_records : list comparison :=
  returned (compare_benchmarks elements ex_baseline ex_current f10).

(** The record of the sample run at a position. *)
Definition ex_record (i : nat) : comparison :=
  default (Comparison "" unchanged JNull JNull (PInt 0)) (ex_records !! i).

(** Another iteration order of sets. *)
Definition elements_rev (X : gset string) : list string := reverse (elements X).

(** Paths are relative to one directory, and a leading [./] changes
    nothing. *)
Definition ex_locate (path : string) : string :=
  match path with
  | String "."%char (String "/"%char rest) => rest
  | _ => path
  end.

(** A locale that encodes every text (UTF-8). *)
Definition ex_world : world :=
  {| locate := ex_locate;
     fs := list_to_map [("base.json", File "B"); ("curr.json", File "C");
                        ("locked.json", Denied); ("bad.json", File "{");
                        ("reports", Directory); ("frozen.md", ReadOnly "old");
                        ("nowhere/comparison.md", NoDirectory)];
     stdout := [];
     file_encodes := λ _, true;
     stdout_encodes := λ _, true |}.

Definition is_ascii (s : string) : bool :=
  forallb (λ c, (Ascii.N_of_ascii c <? 128)%N) (list_ascii_of_string s).

(** The same files under a locale that encodes ASCII only. *)
Definition ex_ascii_world : world :=
  {| locate := ex_locate; fs := fs ex_world; stdout := [];
     file_encodes := is_ascii; stdout_encodes := is_ascii |}.

(** The same files with a standard output that encodes ASCII only. *)
Definition ex_ascii_stdout_world : world :=
  {| locate := ex_locate; fs := fs ex_world; stdout := [];
     file_encodes := λ _, true; stdout_encodes := is_ascii |}.

Definition ex_loads (text : string) : load_failure + json :=
  if decide (text = "B") then inr ex_baseline
  else if decide (text = "C") then inr ex_current
  else inl NotJSON.

Definition ex_args (fail_on_regression : bool) : args_t :=
  Args "base.json" "curr.json" "comparison.md" f10 fail_on_regression.

(** The records and the report of the sample run of the script. *)
Definition ex_prepared (fail_on_regression : bool) : list comparison * string :=
  match prepare ex_loads elements (ex_args fail_on_regression) ex_world with
  | Ok p => p
  | _ => ([], "")
  end.

(** The floats 15.0 and 5.0. *)
Definition f15 : float := Eval vm_compute in f64_of_Z 15.
Definition f5 : float := Eval vm_compute in f64_of_Z 5.

(** Two records of the same measurement: they agree on everything but,
    possibly, which of [regression], [improvement] and [unchanged] the
    status is. *)
Definition same_measurement (r1 r2 : comparison) : Prop :=
  name r1 = name r2 ∧ baseline r1 = baseline r2 ∧ current r1 = current r2 ∧
  change_percent r1 = change_percent r2 ∧
  (status r1 = new ↔ status r2 = new) ∧
  (status r1 = removed ↔ status r2 = removed).

(** The sample runs compared at the threshold 15.0. *)
Definition ex_records_15 : list comparison :=
  returned (compare_benchmarks elements ex_baseline ex_current f15).

(** The float 100.0, the factor of [calculate_change]. *)
Definition f100 : float := Eval vm_compute in f64_of_Z 100.

(** Floats that are not above zero, and floats that are not below zero
    (NaN is both). *)
Definition not_positive (f : float) : Prop :=
  match f with
  | S754_zero _ | S754_nan => True
  | S754_infinity s | S754_finite s _ _ => s = true
  end.

Definition not_negative (f : float) : Prop :=
  match f with
  | S754_zero _ | S754_nan => True
  | S754_infinity s | S754_finite s _ _ => s = false
  end.

Definition is_object (v : json) : Prop :=
  match v with
  | JObj _ => True
  | _ => False
  end.

(** The values that cannot be a dict key. *)
Definition unhashable (v : json) : Prop :=
  match v with
  | JArr _ | JObj _ => True
  | _ => False
  end.

(** Runs with a bad second entry: one without a name, one that is a
    number. *)
Definition ex_nameless : json :=
  run "v" [bench "parse" 7; JObj (list_to_map [("mean_ns", JInt 3)]); bench "emit" 9].

Definition ex_stray_number : json :=
  run "v" [bench "parse" 7; JInt 3; bench "emit" 9].

(** The unit suffixes of [format_duration] and [format_throughput], tier
    by tier. *)
Definition unit_suffixes : list (string * string) :=
  [("s", "G ops/s"); ("ms", "M ops/s"); ("Âµs", "K ops/s"); ("ns", " ops/s")].

(** Whether an int renders, in both formatters, as its own digits. *)
Definition renders_as_itself (z : Z) : bool :=
  match format_duration (JInt z), format_throughput (JInt z) with
  | Ok a, Ok b =>
      String.eqb a (pretty z +:+ "ns") && String.eqb b (pretty z +:+ " ops/s")
  | _, _ => false
  end.




(** Exceptions other than [SystemExit]. *)
Definition not_exit (e : exn) : Prop :=
  match e with
  | SystemExit _ => False
  | _ => True
  end.

(** Runs whose means are zeros of either sign and of either type. *)
Definition ex_zero_means : json :=
  run "v5" [bench "int" 0;
            JObj (list_to_map [("name", JStr "plus"); ("mean_ns", JFloat (S754_zero false))]);
            JObj (list_to_map [("name", JStr "minus"); ("mean_ns", JFloat (S754_zero true))]);
            JObj (list_to_map [("name", JStr "no"); ("mean_ns", JBool false)])].

Definition ex_ones : json :=
  run "v6" [bench "int" 1; bench "plus" 1; bench "minus" 1; bench "no" 1].

(** Arguments naming a baseline file that is not there. *)
Definition ex_args_missing : args_t :=
  Args "nowhere.json" "curr.json" "comparison.md" f10 true.

(** Arguments whose output path leads, under another spelling, to the
    baseline file. *)
Definition ex_args_onto_baseline : args_t :=
  Args "base.json" "curr.json" "./base.json" f10 false.

(** A run whose only mean is not a number, as [json.load] reads the
    literal [NaN]. *)
Definition ex_nan_bench : json :=
  JObj (list_to_map [("name", JStr "emit"); ("mean_ns", JFloat S754_nan)]).

Definition ex_nan_run : json := run "v4" [ex_nan_bench].

Definition ex_nan_record : comparison :=
  Comparison "emit" unchanged ex_nan_bench ex_nan_bench (PFloat S754_nan).

(** What the report reads of a run document: its ['version'] and its
    ['timestamp'], if it is a dict. *)
Definition metadata (doc : json) : option (option json * option json) :=
  match doc with
  | JObj d => Some (d !! "version", d !! "timestamp")
  | _ => None
  end.

(** The sample baseline with other benchmarks and another field. *)
Definition ex_baseline_other : json :=
  JObj (list_to_map [("version", JStr "v1"); ("benchmarks", JArr []);
                     ("host", JStr "ci")]).

(** * Properties *)

(** ** Outcomes *)

Lemma bind_Ok {A B} (m : outcome A) (k : A → outcome B) (b : B) :
  (m ≫= k) = Ok b ↔ ∃ a, m = Ok a ∧ k a = Ok b.
Proof.
  destruct m as [a| |]; simpl; split; try (intros [? [? ?]]; discriminate); try discriminate.
  - intros Hk. by exists a.
  - intros [a' [[= ->] Hk]]. done.
Qed.

(** Take apart a hypothesis [... = Ok _] along the binds of a definition. *)
Ltac ok_inv H :=
  repeat match type of H with
  | (_ ≫= _) = Ok _ =>
      let a := fresh "a" in let Ha := fresh "Ha" in
      apply bind_Ok in H as (a & Ha & H)
  | Ok _ = Ok _ => injection H as H
  | Raise _ = Ok _ => discriminate H
  | Unmodelled = Ok _ => discriminate H
  end.

Lemma for_each_Ok {A B} (f : A → outcome B) (l : list A) (ys : list B) :
  for_each f l = Ok ys ↔ Forall2 (λ x y, f x = Ok y) l ys.
Proof.
  revert ys. induction l as [|x l IH]; intros ys; simpl.
  - split.
    + intros [= <-]. constructor.
    + intros Hl. by inversion Hl.
  - split.
    + intros H. ok_inv H. subst ys. apply IH in Ha0. by constructor.
    + intros Hl. inversion Hl as [|? y ? ys' Hy Hys]; subst.
      rewrite Hy. simpl. apply IH in Hys. by rewrite Hys.
Qed.

Lemma for_each_Ok_all {A B} (f : A → outcome B) (l : list A) :
  (∀ x, ∃ y, f x = Ok y) → ∃ ys, for_each f l = Ok ys.
Proof.
  intros Hf. induction l as [|x l [ys IH]]; simpl.
  - by eexists.
  - destruct (Hf x) as [y ->]. simpl. rewrite IH. simpl. by eexists.
Qed.

Lemma may_raise_bind {A B} (P : exn → Prop) (m : outcome A) (k : A → outcome B) :
  may_raise P m → (∀ a, m = Ok a → may_raise P (k a)) → may_raise P (m ≫= k).
Proof. destruct m; simpl; auto. Qed.

Lemma returns_or_raises_bind {A B} (P : exn → Prop) (m : outcome A) (k : A → outcome B) :
  returns_or_raises P m → (∀ a, m = Ok a → returns_or_raises P (k a)) →
  returns_or_raises P (m ≫= k).
Proof. destruct m; simpl; auto. Qed.

Lemma returns_may_raise {A} (P : exn → Prop) (m : outcome A) :
  returns_or_raises P m → may_raise P m.
Proof. by destruct m. Qed.

Lemma returns_or_raises_mono {A} (P Q : exn → Prop) (m : outcome A) :
  (∀ e, P e → Q e) → returns_or_raises P m → returns_or_raises Q m.
Proof. destruct m; simpl; auto. Qed.

Lemma may_raise_mono {A} (P Q : exn → Prop) (m : outcome A) :
  (∀ e, P e → Q e) → may_raise P m → may_raise Q m.
Proof. destruct m; simpl; auto. Qed.

Lemma for_each_returns_or_raises {A B} (P : exn → Prop) (f : A → outcome B) l :
  (∀ x, returns_or_raises P (f x)) → returns_or_raises P (for_each f l).
Proof.
  intros Hf. induction l as [|x l IH]; simpl; [done|].
  apply returns_or_raises_bind; [done|]. intros y _.
  apply returns_or_raises_bind; [done|]. by intros ys _.
Qed.

Lemma for_each_may_raise {A B} (P : exn → Prop) (f : A → outcome B) l :
  (∀ x, may_raise P (f x)) → may_raise P (for_each f l).
Proof.
  intros Hf. induction l as [|x l IH]; simpl; [done|].
  apply may_raise_bind; [done|]. intros y _.
  apply may_raise_bind; [done|]. by intros ys _.
Qed.

(** ** Numbers: the tests against the threshold *)

Lemma pow2_pos (e : Z) : (0 ≤ e → 0 < 2 ^ e)%Z.
Proof. intros. by apply Z.pow_pos_nonneg. Qed.

(** Decide the integer comparisons left by a case analysis on floats. *)
Ltac zcmp :=
  repeat match goal with
  | H : context [(?a ?= ?b)%Z] |- _ =>
      let E := fresh "E" in
      destruct (Z.compare_spec a b) as [E|E|E];
      cbn -[Z.compare Z.mul Z.pow Z.opp] in H; try discriminate H
  | |- context [(?a ?= ?b)%Z] =>
      let E := fresh "E" in
      destruct (Z.compare_spec a b) as [E|E|E];
      cbn -[Z.compare Z.mul Z.pow Z.opp]
  end;
  try done;
  try (exfalso;
       repeat match goal with
       | _ : context [(2 ^ Z.pos ?k)%Z] |- _ =>
           lazymatch goal with
           | _ : (0 < 2 ^ Z.pos k)%Z |- _ => fail
           | _ => pose proof (pow2_pos (Z.pos k) ltac:(lia))
           end
       end; nia).

(** With a threshold that is not negative, the two tests of the chain
    exclude each other. *)
Lemma tests_exclusive (x : number) (t : float) :
  f64_negative t = false →
  num_gtb x (PFloat t) = true → num_ltb x (PFloat (SFopp t)) = false.
Proof.
  unfold f64_negative, num_gtb, num_ltb, num_compare.
  destruct x as [a|f].
  - destruct t as [s|s| |s m e]; simpl.
    + intros _ H. zcmp.
    + by destruct s.
    + done.
    + destruct s; [done|]. intros _.
      destruct e as [|e|e]; simpl; intros H; zcmp.
  - destruct f as [[]|[]| |[] mf ef], t as [[]|[]| |[] m e]; simpl; done.
Qed.

Lemma at_threshold (x : number) (t : float) :
  f64_negative t = false →
  num_eqb x (PFloat t) = true →
  num_gtb x (PFloat t) = false ∧ num_ltb x (PFloat (SFopp t)) = false.
Proof.
  unfold f64_negative, num_eqb, num_gtb, num_ltb, num_compare.
  destruct x as [a|f].
  - destruct t as [s|s| |s m e]; simpl.
    + intros _ H. split; zcmp.
    + by destruct s.
    + done.
    + destruct s; [done|]. intros _.
      destruct e as [|e|e]; simpl; intros H; split; zcmp.
  - destruct f as [[]|[]| |[] mf ef], t as [[]|[]| |[] m e]; simpl; try done.
    all: intros _ H; split; try done; revert H; repeat case_match; done.
Qed.

Lemma at_minus_threshold (x : number) (t : float) :
  f64_negative t = false →
  num_eqb x (PFloat (SFopp t)) = true →
  num_gtb x (PFloat t) = false ∧ num_ltb x (PFloat (SFopp t)) = false.
Proof.
  unfold f64_negative, num_eqb, num_gtb, num_ltb, num_compare.
  destruct x as [a|f].
  - destruct t as [s|s| |s m e]; simpl.
    + intros _ H. split; zcmp.
    + by destruct s.
    + done.
    + destruct s; [done|]. intros _.
      destruct e as [|e|e]; simpl; intros H; split; zcmp.
  - destruct f as [[]|[]| |[] mf ef], t as [[]|[]| |[] m e]; simpl; try done.
    intros _ H; split; try done; revert H; repeat case_match; done.
Qed.

Lemma classify_cases change t :
  classify change t = regression ∨ classify change t = improvement ∨
  classify change t = unchanged.
Proof. unfold classify. repeat case_match; auto. Qed.

(** The chain as the source orders it. *)
Lemma classify_spec change t :
  (classify change t = regression ↔ num_gtb change (PFloat t) = true) ∧
  (classify change t = improvement ↔
     num_gtb change (PFloat t) = false ∧
     num_ltb change (PFloat (SFopp t)) = true) ∧
  (classify change t = unchanged ↔
     num_gtb change (PFloat t) = false ∧
     num_ltb change (PFloat (SFopp t)) = false).
Proof.
  unfold classify.
  destruct (num_gtb _ _), (num_ltb _ _); repeat split; try done;
    intros [? ?]; done.
Qed.

Lemma classify_as_stated change t :
  f64_negative t = false → classified_as_stated change t (classify change t).
Proof.
  intros Ht. pose proof (tests_exclusive change t Ht) as Hex.
  destruct (classify_spec change t) as (Hr & Hi & Hu).
  unfold classified_as_stated. split; [done|]. split; [|done].
  rewrite Hi. split; [by intros [_ ?]|]. intros Hlt. split; [|done].
  destruct (num_gtb change (PFloat t)) eqn:E; [|done].
  by rewrite (Hex eq_refl) in Hlt.
Qed.

Lemma classify_zero t :
  classify (PInt 0) t = if f64_negative t then regression else unchanged.
Proof.
  unfold classify, f64_negative, num_gtb, num_ltb, num_compare.
  destruct t as [s|[]| |[] m [|e|e]];
    cbn -[Z.compare Z.mul Z.pow Z.opp]; try done.
  all: zcmp.
Qed.

(** ** Numbers: the float of a nonzero int *)

Lemma digits2_pos_bounds (m : positive) :
  (2 ^ (Zpos (digits2_pos m) - 1) ≤ Zpos m < 2 ^ Zpos (digits2_pos m))%Z.
Proof.
  induction m as [m IH|m IH|]; simpl digits2_pos.
  - rewrite Pos2Z.inj_succ.
    replace (Z.succ (Zpos (digits2_pos m)) - 1)%Z with (Z.succ (Zpos (digits2_pos m) - 1)) by lia.
    rewrite !Z.pow_succ_r by lia. lia.
  - rewrite Pos2Z.inj_succ.
    replace (Z.succ (Zpos (digits2_pos m)) - 1)%Z with (Z.succ (Zpos (digits2_pos m) - 1)) by lia.
    rewrite !Z.pow_succ_r by lia. lia.
  - simpl. lia.
Qed.

Lemma shr_1_m (mrs : shr_record) :
  (0 ≤ shr_m mrs)%Z → shr_m (shr_1 mrs) = (shr_m mrs / 2)%Z.
Proof.
  destruct mrs as [m r s]. cbn [shr_m]. intros Hm.
  destruct m as [|[p|p|]|p]; cbn [shr_1 shr_m]; try done; try lia.
  - apply Z.div_unique with 1%Z; lia.
  - apply Z.div_unique with 0%Z; lia.
Qed.

Lemma pow2_xI (p : positive) : (2 ^ Zpos p~1 = 2 * (2 ^ Zpos p * 2 ^ Zpos p))%Z.
Proof.
  change (Z.pos p~1) with (2 * Z.pos p + 1)%Z.
  rewrite Z.pow_add_r, Z.pow_twice_r by lia. lia.
Qed.

Lemma pow2_xO (p : positive) : (2 ^ Zpos p~0 = 2 ^ Zpos p * 2 ^ Zpos p)%Z.
Proof.
  change (Z.pos p~0) with (2 * Z.pos p)%Z. apply Z.pow_twice_r.
Qed.

Lemma iter_shr_1_m (p : positive) (mrs : shr_record) :
  (0 ≤ shr_m mrs)%Z →
  shr_m (SpecFloat.iter_pos shr_1 p mrs) = (shr_m mrs / 2 ^ Zpos p)%Z.
Proof.
  revert mrs. induction p as [p IH|p IH|]; intros mrs Hm; simpl SpecFloat.iter_pos.
  - assert (0 ≤ shr_m (shr_1 mrs))%Z as H1.
    { rewrite shr_1_m by done. by apply Z.div_pos. }
    assert (0 ≤ shr_m (SpecFloat.iter_pos shr_1 p (shr_1 mrs)))%Z as H2.
    { rewrite IH by done. apply Z.div_pos; [done|]. by apply pow2_pos. }
    pose proof (pow2_pos (Zpos p) ltac:(lia)).
    rewrite IH, IH, shr_1_m, pow2_xI by done.
    rewrite !Z.div_div by lia. done.
  - assert (0 ≤ shr_m (SpecFloat.iter_pos shr_1 p mrs))%Z as H2.
    { rewrite IH by done. apply Z.div_pos; [done|]. by apply pow2_pos. }
    pose proof (pow2_pos (Zpos p) ltac:(lia)).
    rewrite IH, IH, pow2_xO by done.
    rewrite !Z.div_div by lia. done.
  - by rewrite shr_1_m.
Qed.

Lemma shr_record_of_loc_m (m : Z) (l : location) : shr_m (shr_record_of_loc m l) = m.
Proof. by destruct l as [|[]]. Qed.

(** Rounding to the format keeps a positive mantissa positive. *)
Lemma shr_fexp_pos (q : positive) (e : Z) (l : location) :
  (-1074 ≤ e)%Z →
  (0 < shr_m (shr_fexp 53 1024 (Zpos q) e l).1)%Z ∧
  (e ≤ (shr_fexp 53 1024 (Zpos q) e l).2)%Z.
Proof.
  intros He. unfold shr_fexp, shr, fexp, emin. cbn [Zdigits2].
  pose proof (digits2_pos_bounds q) as [Hlo _].
  set (d := Zpos (digits2_pos q)) in *.
  destruct (Z.max (d + e - 53) (3 - 1024 - 53) - e)%Z as [|p|p] eqn:En;
    cbn [fst snd]; rewrite ?shr_record_of_loc_m; try lia.
  rewrite iter_shr_1_m by (rewrite shr_record_of_loc_m; lia).
  rewrite shr_record_of_loc_m. split; [|lia].
  assert (Zpos p ≤ d - 1)%Z as Hp by lia.
  pose proof (pow2_pos (Zpos p) ltac:(lia)).
  apply Z.div_str_pos. split; [done|].
  etrans; [|exact Hlo]. apply Z.pow_le_mono_r; lia.
Qed.

Lemma round_nearest_even_ge (m : Z) (l : location) : (m ≤ round_nearest_even m l)%Z.
Proof. destruct l as [|[]]; simpl; try lia. destruct (Z.even m); lia. Qed.

Lemma binary_round_aux_nonzero (sx : bool) (mx : positive) (ex : Z) (lx : location) :
  (-1074 ≤ ex)%Z →
  f64_is_zero (binary_round_aux 53 1024 sx (Zpos mx) ex lx) = false.
Proof.
  intros He. unfold binary_round_aux.
  pose proof (shr_fexp_pos mx ex lx He) as [H1 H2].
  destruct (shr_fexp 53 1024 (Zpos mx) ex lx) as [mrs' e']. cbn [fst snd] in *.
  pose proof (round_nearest_even_ge (shr_m mrs') (loc_of_shr_record mrs')) as Hr.
  destruct (round_nearest_even (shr_m mrs') (loc_of_shr_record mrs')) as [|q|q]; try lia.
  pose proof (shr_fexp_pos q e' loc_Exact ltac:(lia)) as [H3 _].
  destruct (shr_fexp 53 1024 (Zpos q) e' loc_Exact) as [mrs'' e'']. cbn [fst snd] in *.
  destruct (shr_m mrs'') as [|m|m]; try lia.
  by destruct (e'' <=? 1024 - 53)%Z.
Qed.

(** [float(z)] of a nonzero int is not a zero. *)
Lemma f64_of_Z_nonzero (z : Z) : z ≠ 0%Z → f64_is_zero (f64_of_Z z) = false.
Proof.
  assert (∀ s m, f64_is_zero (binary_round 53 1024 s m 0) = false) as H.
  { intros s m. unfold binary_round.
    destruct (shl_align m 0 (fexp 53 1024 (Zpos (digits2_pos m) + 0))) as [mz ez] eqn:E.
    apply binary_round_aux_nonzero.
    unfold shl_align, fexp, emin in E.
    destruct (Z.max _ _ - 0)%Z eqn:En; injection E as <- <-; lia. }
  intros Hz. unfold f64_of_Z, binary_normalize. destruct z; [done|apply H|apply H].
Qed.

(** ** Numbers: what the arithmetic raises *)

Lemma to_float_overflow x : returns_or_raises overflow (to_float x).
Proof.
  destruct x as [z|f]; simpl; [|done]. unfold int_to_float.
  by destruct (f64_of_Z z).
Qed.

Lemma to_float_nonzero x f :
  num_is_zero x = false → to_float x = Ok f → f64_is_zero f = false.
Proof.
  destruct x as [z|g]; simpl.
  - intros Hz%Z.eqb_neq. unfold int_to_float.
    pose proof (f64_of_Z_nonzero z Hz) as Hn.
    destruct (f64_of_Z z); intros [= <-]; done.
  - by intros ? [= <-].
Qed.

Lemma num_sub_overflow x y : returns_or_raises overflow (num_sub x y).
Proof.
  unfold num_sub. destruct x, y; try done;
    (apply returns_or_raises_bind; [apply to_float_overflow|]; intros a _;
     apply returns_or_raises_bind; [apply to_float_overflow|]; by intros b _).
Qed.

Lemma num_mul_overflow x y : returns_or_raises overflow (num_mul x y).
Proof.
  unfold num_mul. destruct x, y; try done;
    (apply returns_or_raises_bind; [apply to_float_overflow|]; intros a _;
     apply returns_or_raises_bind; [apply to_float_overflow|]; by intros b _).
Qed.

(** A divisor that is not zero is never divided by as zero. *)
Lemma num_truediv_overflow x y :
  num_is_zero y = false → returns_or_raises overflow (num_truediv x y).
Proof.
  intros Hy. unfold num_truediv.
  assert (returns_or_raises overflow
            (a ← to_float x; b ← to_float y; q ← float_truediv a b; Ok (PFloat q))) as Hf.
  { apply returns_or_raises_bind; [apply to_float_overflow|]. intros a _.
    apply returns_or_raises_bind; [apply to_float_overflow|]. intros b Hb.
    unfold float_truediv. by rewrite (to_float_nonzero _ _ Hy Hb). }
  destruct x as [a|a], y as [b|b]; try exact Hf.
  simpl in Hy. unfold int_truediv. rewrite Hy. simpl.
  by destruct (f64_div _ _).
Qed.

Lemma int_to_float_100 : ∃ f, int_to_float 100 = Ok f.
Proof. eexists. by vm_compute. Qed.

(** ** [calculate_change] *)

Lemma py_eq_zero_false v n :
  as_number v = Some n → py_eq_zero v = false → num_is_zero n = false.
Proof.
  unfold py_eq_zero. intros ->. unfold num_eqb, num_compare.
  destruct n as [z|f]; simpl.
  - destruct (Z.compare_spec z 0); try done; intros _; by apply Z.eqb_neq; lia.
  - by destruct f.
Qed.

Lemma calculate_change_nonzero bm cm change :
  py_eq_zero bm = false → calculate_change bm cm = Ok change →
  ∃ b c, as_number bm = Some b ∧ as_number cm = Some c ∧
         percent_change b c = Ok change.
Proof.
  unfold calculate_change, percent_change, operand. intros -> H.
  destruct (as_number cm) as [c|]; [|done].
  destruct (as_number bm) as [b|]; [|done].
  by exists b, c.
Qed.

Lemma calculate_change_zero bm cm :
  py_eq_zero bm = true → calculate_change bm cm = Ok (PInt 0).
Proof. unfold calculate_change. by intros ->. Qed.

Lemma mean_ns_absent (d : gmap string json) :
  d !! "mean_ns" = None → py_eq_zero (mean_ns (JObj d)) = true.
Proof. simpl. by intros ->. Qed.

Lemma calculate_change_shape bm cm change :
  calculate_change bm cm = Ok change →
  change = PInt 0 ∨ ∃ f, change = PFloat f.
Proof.
  unfold calculate_change. destruct (py_eq_zero bm).
  - intros [= <-]. by left.
  - intros H. ok_inv H. right.
    assert (∃ q, a2 = PFloat q) as [q ->].
    { unfold num_truediv in Ha2.
      destruct a1, a0; ok_inv Ha2; subst; eauto. }
    unfold num_mul in H. simpl in H. ok_inv H. subst. eauto.
Qed.

(** [calculate_change] returns on two numbers unless a conversion or the
    quotient leaves the float range. *)
Lemma calculate_change_numbers bm cm :
  is_number bm → is_number cm →
  returns_or_raises overflow (calculate_change bm cm).
Proof.
  intros [b Hb] [c Hc]. unfold calculate_change, operand.
  destruct (py_eq_zero bm) eqn:Hz; [done|]. rewrite Hb, Hc. simpl.
  apply returns_or_raises_bind; [apply num_sub_overflow|]. intros d _.
  apply returns_or_raises_bind.
  { apply num_truediv_overflow. by eapply py_eq_zero_false. }
  intros q _. apply num_mul_overflow.
Qed.

(** Whatever the two values, [calculate_change] raises nothing but
    [TypeError] and [OverflowError]: no division by zero. *)
Lemma calculate_change_exceptions bm cm :
  returns_or_raises (λ e, e = TypeError ∨ e = OverflowError) (calculate_change bm cm).
Proof.
  destruct (as_number bm) as [b|] eqn:Hb, (as_number cm) as [c|] eqn:Hc.
  - eapply returns_or_raises_mono; [|apply calculate_change_numbers; by eexists].
    intros e ->. by right.
  - unfold calculate_change, operand. rewrite Hc.
    destruct (py_eq_zero bm); simpl; auto.
  - unfold calculate_change, operand, py_eq_zero. rewrite Hb, Hc. simpl. auto.
  - unfold calculate_change, operand, py_eq_zero. rewrite Hb, Hc. simpl. auto.
Qed.

Lemma calculate_change_floats bm cm :
  bm = JInt 0 ∨ is_float bm → cm = JInt 0 ∨ is_float cm →
  ∃ change, calculate_change bm cm = Ok change.
Proof.
  intros Hb Hc. unfold calculate_change.
  destruct (py_eq_zero bm) eqn:Hz; [by eexists|].
  destruct Hb as [-> | Hb]; [done|].
  destruct bm as [| | |fb| | |]; try done.
  assert (f64_is_zero fb = false) as Hnz by (by destruct fb).
  destruct Hc as [-> | Hc].
  - simpl. unfold float_truediv. rewrite Hnz. simpl. eexists. reflexivity.
  - destruct cm as [| | |fc| | |]; try done.
    simpl. unfold float_truediv. rewrite Hnz. simpl. eexists. reflexivity.
Qed.

(** ** The name index of a run *)

Lemma key_name_of (b v : json) (k : string) :
  subscript_name b = Ok v → dict_key v = Ok k → name_of b = Some k.
Proof.
  destruct b as [| | | | | |d]; simpl; try discriminate.
  destruct (d !! "name") as [w|]; [|discriminate].
  intros [= ->]. destruct v; simpl; try discriminate. by intros [= ->].
Qed.

Lemma name_of_is_dict (b : json) (k : string) :
  name_of b = Some k → ∃ d, b = JObj d.
Proof. destruct b; simpl; try discriminate. eauto. Qed.

Lemma entry_snoc (l : list json) (b : json) (n : string) :
  entry (l ++ [b]) n = if decide (name_of b = Some n) then Some b else entry l n.
Proof.
  unfold entry. rewrite filter_app, filter_cons, filter_nil.
  case_decide.
  - by rewrite last_snoc.
  - by rewrite app_nil_r.
Qed.

Lemma entry_cons (b : json) (l : list json) (n : string) :
  entry (b :: l) n =
    match entry l n with
    | Some b' => Some b'
    | None => if decide (name_of b = Some n) then Some b else None
    end.
Proof.
  unfold entry. rewrite filter_cons.
  case_decide; [|by destruct (last _)].
  destruct (filter _ l) as [|y ys] eqn:E; [done|].
  rewrite last_cons. by destruct (last (y :: ys)) eqn:E'.
Qed.

Lemma entry_Some (l : list json) (n : string) (b : json) :
  entry l n = Some b → b ∈ l ∧ name_of b = Some n.
Proof.
  unfold entry. intros H%last_Some_elem_of.
  by apply list_elem_of_filter in H as [? ?].
Qed.

Lemma entry_is_Some (l : list json) (n : string) :
  is_Some (entry l n) ↔ ∃ b, b ∈ l ∧ name_of b = Some n.
Proof.
  split.
  - intros [b Hb]. exists b. by apply entry_Some.
  - intros (b & Hin & Hn). unfold entry.
    assert (b ∈ filter (λ b, name_of b = Some n) l) as Hf
      by (by apply list_elem_of_filter).
    destruct (filter _ l) as [|y ys]; [by apply elem_of_nil in Hf|].
    rewrite last_cons. destruct (last ys); eauto.
Qed.

Lemma entry_dict l n b : entry l n = Some b → ∃ d, b = JObj d.
Proof. intros [_ H]%entry_Some. by eapply name_of_is_dict. Qed.

Lemma by_name_lookup (l : list json) (acc m : gmap string json) (n : string) :
  by_name l acc = Ok m →
  m !! n = match entry l n with
           | Some b => Some b
           | None => acc !! n
           end.
Proof.
  revert acc. induction l as [|b l IH]; intros acc H; simpl in H.
  - by injection H as <-.
  - ok_inv H. rewrite (IH _ H), entry_cons.
    destruct (entry l n) as [b'|]; [done|].
    pose proof (key_name_of _ _ _ Ha Ha0) as Hk.
    case_decide as Hd.
    + rewrite Hk in Hd. injection Hd as ->. by rewrite lookup_insert_eq.
    + rewrite lookup_insert_ne; [done|]. intros ->. by rewrite Hk in Hd.
Qed.

Lemma by_name_first_str (s : string) (l : list json) (acc : gmap string json) :
  by_name (JStr s :: l) acc = Raise TypeError.
Proof. done. Qed.

(** The index built from a document is the last-wins lookup of its items. *)
Lemma benchmarks_by_name_lookup (doc : json) (m : gmap string json) (n : string) :
  benchmarks_by_name doc = Ok m → m !! n = entry (items doc) n.
Proof.
  unfold benchmarks_by_name. intros H. ok_inv H.
  destruct doc as [| | | | | |d]; simpl in Ha; try discriminate.
  injection Ha as <-. simpl.
  destruct (d !! "benchmarks") as [v|]; simpl in *.
  - destruct v as [| | | |s|l|d']; simpl in Ha0; try discriminate;
      injection Ha0 as <-.
    + destruct (list_ascii_of_string s); simpl in H; [|discriminate].
      by injection H as <-.
    + rewrite (by_name_lookup _ _ _ n H). by destruct (entry l n).
    + destruct (elements (dom d')); simpl in H; [|discriminate].
      by injection H as <-.
  - injection Ha0 as <-. simpl in H. by injection H as <-.
Qed.

Lemma benchmarks_by_name_dict (doc : json) (m : gmap string json) (n : string) (b : json) :
  benchmarks_by_name doc = Ok m → m !! n = Some b →
  name_of b = Some n ∧ ∃ d, b = JObj d.
Proof.
  intros H Hb. rewrite (benchmarks_by_name_lookup _ _ n H) in Hb.
  apply entry_Some in Hb as [_ Hn]. split; [done|]. by eapply name_of_is_dict.
Qed.

Lemma benchmarks_by_name_not_list (d : gmap string json) (v : json) :
  d !! "benchmarks" = Some v → ¬ is_list v → ¬ empty_iterable v →
  benchmarks_by_name (JObj d) = Raise TypeError.
Proof.
  intros Hd Hl He. unfold benchmarks_by_name. simpl. rewrite Hd. simpl.
  destruct v as [| | | |s|l|d']; simpl; try done.
  - destruct s as [|c s]; [|done]. destruct He. right. by left.
  - destruct (elements (dom d')) as [|k ks] eqn:E; [|done].
    destruct He. right. right. f_equal.
    apply elements_empty_inv in E. apply leibniz_equiv in E.
    by apply dom_empty_iff_L.
Qed.

Lemma benchmarks_by_name_empty (d : gmap string json) (v : json) :
  d !! "benchmarks" = Some v → empty_iterable v →
  benchmarks_by_name (JObj d) = Ok ∅.
Proof.
  intros Hd [-> | [-> | ->]]; unfold benchmarks_by_name; simpl; rewrite Hd; simpl; done.
Qed.

Lemma benchmarks_by_name_missing (d : gmap string json) :
  d !! "benchmarks" = None → benchmarks_by_name (JObj d) = Ok ∅.
Proof. intros Hd. unfold benchmarks_by_name. simpl. by rewrite Hd. Qed.

Lemma by_name_total (l : list json) (acc : gmap string json) :
  Forall (λ b, is_Some (name_of b)) l → ∃ m, by_name l acc = Ok m.
Proof.
  intros H. revert acc. induction H as [|b l [n Hn] _ IH]; intros acc; simpl.
  - by eexists.
  - destruct b as [| | | | | |d]; simpl in Hn; try discriminate.
    simpl. destruct (d !! "name") as [[| | | |s| |]|]; try discriminate.
    simpl. apply IH.
Qed.

Lemma benchmarks_by_name_total ok_mean (doc : json) :
  well_formed ok_mean doc → ∃ m, benchmarks_by_name doc = Ok m.
Proof.
  intros [(d & -> & Hd) Hall]. unfold benchmarks_by_name. simpl in *.
  destruct Hd as [Hd|[l Hd]]; rewrite Hd in *; simpl.
  - by eexists.
  - apply by_name_total. eapply Forall_impl; [exact Hall|]. by intros b [? _].
Qed.

(** The values of the index of a well-formed document. *)
Lemma well_formed_entry ok_mean doc m n b :
  well_formed ok_mean doc → benchmarks_by_name doc = Ok m → m !! n = Some b →
  ∃ d, b = JObj d ∧
       (default (JInt 0) (d !! "mean_ns") = JInt 0 ∨
        ok_mean (default (JInt 0) (d !! "mean_ns"))).
Proof.
  intros [_ Hall] Hm Hl.
  rewrite (benchmarks_by_name_lookup _ _ n Hm) in Hl.
  destruct (entry_dict _ _ _ Hl) as [d ->]. exists d. split; [done|].
  apply entry_Some in Hl as [Hin _].
  rewrite Forall_forall in Hall. destruct (Hall _ Hin) as [_ Hok].
  unfold mean_ok in Hok. simpl in Hok.
  destruct (d !! "mean_ns"); simpl; auto.
Qed.

Lemma by_name_exceptions l acc : may_raise comparator_exn (by_name l acc).
Proof.
  revert acc. induction l as [|b l IH]; intros acc; simpl; [done|].
  apply may_raise_bind.
  { unfold subscript_name, comparator_exn.
    destruct b as [| | | | | |d]; simpl; auto. destruct (d !! "name"); simpl; auto. }
  intros v _. apply may_raise_bind; [|by intros].
  unfold comparator_exn. destruct v; simpl; auto.
Qed.

Lemma benchmarks_by_name_exceptions doc :
  may_raise comparator_exn (benchmarks_by_name doc).
Proof.
  unfold benchmarks_by_name.
  apply may_raise_bind.
  { unfold comparator_exn. destruct doc; simpl; auto. }
  intros v _. apply may_raise_bind.
  { unfold comparator_exn. destruct v; simpl; auto. }
  intros l _. apply by_name_exceptions.
Qed.

(** ** The loop of [compare_benchmarks] *)

Lemma sorted_spec (so : gset string → list string) (X : gset string) :
  enumerates so →
  NoDup (sorted (so X)) ∧ Sorted String.le (sorted (so X)) ∧
  ∀ n, n ∈ sorted (so X) ↔ n ∈ X.
Proof.
  intros Hso. unfold sorted.
  assert (merge_sort String.le (so X) ≡ₚ elements X) as HP.
  { rewrite merge_sort_Permutation. apply Hso. }
  split; [|split].
  - rewrite HP. apply NoDup_elements.
  - apply Sorted_merge_sort. apply _.
  - intros n. rewrite HP. apply elem_of_elements.
Qed.

(** The order in which the set hands out the names does not matter. *)
Lemma sorted_order_irrelevant (so1 so2 : gset string → list string) (X : gset string) :
  enumerates so1 → enumerates so2 → sorted (so1 X) = sorted (so2 X).
Proof.
  intros H1 H2. unfold sorted.
  apply (Sorted_unique String.le).
  - apply Sorted_merge_sort. apply _.
  - apply Sorted_merge_sort. apply _.
  - rewrite !merge_sort_Permutation. by rewrite (H1 X), (H2 X).
Qed.

Lemma compare_name_name bb cb t n r :
  compare_name bb cb t n = Ok r → name r = n.
Proof.
  unfold compare_name. repeat case_match; intros Hr; ok_inv Hr; by subst r.
Qed.

Lemma compare_name_new bb cb t n r :
  bb !! n = None → compare_name bb cb t n = Ok r →
  r = Comparison n new JNull (get_or_none cb n) (PInt 0).
Proof.
  unfold compare_name, get_or_none. intros ->. simpl. by intros [= <-].
Qed.

Lemma compare_name_removed bb cb t n d r :
  bb !! n = Some (JObj d) → cb !! n = None → compare_name bb cb t n = Ok r →
  r = Comparison n removed (JObj d) JNull (PInt 0).
Proof.
  unfold compare_name, get_or_none. intros -> ->. simpl. by intros [= <-].
Qed.

Lemma compare_name_both bb cb t n d1 d2 r :
  bb !! n = Some (JObj d1) → cb !! n = Some (JObj d2) →
  compare_name bb cb t n = Ok r →
  ∃ change,
    calculate_change (mean_ns (JObj d1)) (mean_ns (JObj d2)) = Ok change ∧
    r = Comparison n (classify change t) (JObj d1) (JObj d2) change.
Proof.
  unfold compare_name, get_or_none. intros -> ->. simpl. intros H.
  ok_inv H. exists a. by subst r.
Qed.

Lemma compare_name_change bb cb t n r :
  compare_name bb cb t n = Ok r →
  change_percent r = PInt 0 ∨ ∃ f, change_percent r = PFloat f.
Proof.
  unfold compare_name. repeat case_match; intros Hr; ok_inv Hr; subst r; simpl;
    eauto using calculate_change_shape.
Qed.

Lemma py_get_dict d key dflt : py_get (JObj d) key dflt = Ok (default dflt (d !! key)).
Proof. done. Qed.

Lemma compare_name_exceptions bb cb t n :
  may_raise comparator_exn (compare_name bb cb t n) ∧
  compare_name bb cb t n ≠ Unmodelled.
Proof.
  unfold compare_name.
  destruct (is_none (get_or_none bb n)); [done|].
  destruct (is_none (get_or_none cb n)); [done|].
  destruct (get_or_none bb n) as [| | | | | |d1];
    try (split; [simpl; unfold comparator_exn; auto|done]).
  destruct (get_or_none cb n) as [| | | | | |d2];
    try (split; [simpl; unfold comparator_exn; auto|done]).
  rewrite !py_get_dict. simpl.
  pose proof (calculate_change_exceptions
                (default (JInt 0) (d1 !! "mean_ns"))
                (default (JInt 0) (d2 !! "mean_ns"))) as H.
  destruct (calculate_change _ _) as [ch|e|]; simpl in *; [done| |done].
  split; [|done]. unfold comparator_exn. destruct H as [->| ->]; auto.
Qed.

Lemma compare_names_Forall2 bb cb t (ns : list string) (rs : list comparison) :
  Forall2 (λ n r, compare_name bb cb t n = Ok r) ns rs →
  name <$> rs = ns ∧ Forall (λ r, compare_name bb cb t (name r) = Ok r) rs.
Proof.
  induction 1 as [|n r ns rs Hr _ [IH1 IH2]]; [by split|].
  pose proof (compare_name_name _ _ _ _ _ Hr) as Hn.
  split.
  - by rewrite fmap_cons, Hn, IH1.
  - constructor; [by rewrite Hn|done].
Qed.

(** What a successful run of the comparator consists of: the two indices
    agree with the last-wins entries of the documents, the names of the
    records are the sorted union, and each record is the loop body at its
    name. *)
Lemma compare_benchmarks_Ok so bdoc cdoc t recs :
  compare_benchmarks so bdoc cdoc t = Ok recs →
  ∃ bb cb : gmap string json,
    (∀ n, bb !! n = entry (items bdoc) n) ∧
    (∀ n, cb !! n = entry (items cdoc) n) ∧
    name <$> recs = sorted (so (dom bb ∪ dom cb)) ∧
    Forall (λ r, compare_name bb cb t (name r) = Ok r) recs.
Proof.
  unfold compare_benchmarks. intros H. ok_inv H.
  rename a into bb, a0 into cb. exists bb, cb.
  split; [|split].
  - intros n. by apply benchmarks_by_name_lookup.
  - intros n. by apply benchmarks_by_name_lookup.
  - apply for_each_Ok in H. by apply compare_names_Forall2.
Qed.

(** Every name of the union has its record. *)
Lemma compare_benchmarks_covers so bdoc cdoc t recs n :
  enumerates so →
  compare_benchmarks so bdoc cdoc t = Ok recs →
  is_Some (entry (items bdoc) n) ∨ is_Some (entry (items cdoc) n) →
  ∃ r, r ∈ recs ∧ name r = n.
Proof.
  intros Hso H Hn.
  destruct (compare_benchmarks_Ok _ _ _ _ _ H) as (bb & cb & Hb & Hc & Hnames & _).
  assert (n ∈ name <$> recs) as Hin.
  { rewrite Hnames. apply (sorted_spec so _ Hso).
    rewrite elem_of_union, !elem_of_dom, Hb, Hc. done. }
  apply list_elem_of_fmap in Hin as (r & -> & Hr). eauto.
Qed.

(** Each record of a run is one of the three cases of the loop body, read
    off the last-wins entries of the two documents. *)
Lemma record_cases so bdoc cdoc t recs r :
  enumerates so →
  compare_benchmarks so bdoc cdoc t = Ok recs →
  r ∈ recs →
  (entry (items bdoc) (name r) = None ∧
   ∃ d2, entry (items cdoc) (name r) = Some (JObj d2) ∧
         r = Comparison (name r) new JNull (JObj d2) (PInt 0))
  ∨ (∃ d1, entry (items bdoc) (name r) = Some (JObj d1) ∧
           entry (items cdoc) (name r) = None ∧
           r = Comparison (name r) removed (JObj d1) JNull (PInt 0))
  ∨ (∃ d1 d2 change,
       entry (items bdoc) (name r) = Some (JObj d1) ∧
       entry (items cdoc) (name r) = Some (JObj d2) ∧
       calculate_change (mean_ns (JObj d1)) (mean_ns (JObj d2)) = Ok change ∧
       r = Comparison (name r) (classify change t) (JObj d1) (JObj d2) change).
Proof.
  intros Hso H Hr.
  destruct (compare_benchmarks_Ok _ _ _ _ _ H) as (bb & cb & Hb & Hc & Hnames & Hall).
  rewrite Forall_forall in Hall. specialize (Hall r Hr).
  assert (name r ∈ dom bb ∪ dom cb) as Hdom.
  { apply (sorted_spec so _ Hso). rewrite <- Hnames.
    apply list_elem_of_fmap. eauto. }
  rewrite elem_of_union, !elem_of_dom in Hdom.
  rewrite <- Hb, <- Hc.
  destruct (bb !! name r) as [b|] eqn:Eb.
  - destruct (entry_dict (items bdoc) (name r) b) as [d1 ->];
      [by rewrite <- Hb|].
    destruct (cb !! name r) as [c|] eqn:Ec.
    + destruct (entry_dict (items cdoc) (name r) c) as [d2 ->];
        [by rewrite <- Hc|].
      right; right.
      destruct (compare_name_both _ _ _ _ _ _ _ Eb Ec Hall) as (ch & Hch & Hrec).
      by exists d1, d2, ch.
    + right; left. exists d1. split; [done|]. split; [done|].
      by eapply compare_name_removed.
  - left. split; [done|].
    destruct Hdom as [[? [=]]|[c Ec]].
    destruct (entry_dict (items cdoc) (name r) c) as [d2 ->];
      [by rewrite <- Hc|].
    exists d2. split; [done|].
    rewrite (compare_name_new _ _ _ _ _ Eb Hall) at 1.
    unfold get_or_none. by rewrite Ec.
Qed.

(** The record of a name present in both runs. *)
Lemma record_of_both so bdoc cdoc t recs n b c :
  enumerates so →
  compare_benchmarks so bdoc cdoc t = Ok recs →
  entry (items bdoc) n = Some b → entry (items cdoc) n = Some c →
  (∃ r, r ∈ recs ∧ name r = n) ∧
  ∀ r, r ∈ recs → name r = n →
    ∃ change, calculate_change (mean_ns b) (mean_ns c) = Ok change ∧
              r = Comparison n (classify change t) b c change.
Proof.
  intros Hso H Hb Hc. split.
  { apply (compare_benchmarks_covers _ _ _ _ _ _ Hso H). left. by rewrite Hb. }
  intros r Hr <-.
  destruct (record_cases _ _ _ _ _ _ Hso H Hr)
    as [(Hb' & _)|[(d1 & _ & Hc' & _)|(d1 & d2 & ch & Hb' & Hc' & Hch & Heq)]].
  - by rewrite Hb in Hb'.
  - by rewrite Hc in Hc'.
  - rewrite Hb in Hb'. rewrite Hc in Hc'. simplify_eq. by exists ch.
Qed.

Lemma compare_benchmarks_order_irrelevant so1 so2 bdoc cdoc t :
  enumerates so1 → enumerates so2 →
  compare_benchmarks so1 bdoc cdoc t = compare_benchmarks so2 bdoc cdoc t.
Proof.
  intros H1 H2. unfold compare_benchmarks.
  destruct (benchmarks_by_name bdoc) as [bb| |]; simpl; try done.
  destruct (benchmarks_by_name cdoc) as [cb| |]; simpl; try done.
  by rewrite (sorted_order_irrelevant so1 so2 _ H1 H2).
Qed.

(** The change of a record renders under every format spec used. *)
Lemma change_renders so bdoc cdoc t recs r plus p :
  compare_benchmarks so bdoc cdoc t = Ok recs → r ∈ recs →
  ∃ s, format_number plus p (change_percent r) = Ok s.
Proof.
  intros H Hr.
  destruct (compare_benchmarks_Ok _ _ _ _ _ H) as (bb & cb & _ & _ & _ & Hall).
  rewrite Forall_forall in Hall.
  destruct (compare_name_change _ _ _ _ _ (Hall r Hr)) as [->|[f ->]].
  - eexists. by vm_compute.
  - by eexists.
Qed.

(** ** What the comparator raises, and when it returns *)

(** The comparator raises nothing but [AttributeError], [KeyError],
    [TypeError] and [OverflowError]; in particular it never divides by
    zero, whatever the documents and the threshold. *)
Lemma comparator_exceptions so bdoc cdoc t :
  may_raise comparator_exn (compare_benchmarks so bdoc cdoc t) ∧
  compare_benchmarks so bdoc cdoc t ≠ Raise ZeroDivisionError.
Proof.
  assert (may_raise comparator_exn (compare_benchmarks so bdoc cdoc t)) as H.
  { unfold compare_benchmarks.
    apply may_raise_bind; [apply benchmarks_by_name_exceptions|]. intros bb _.
    apply may_raise_bind; [apply benchmarks_by_name_exceptions|]. intros cb _.
    apply for_each_may_raise. intros n. apply compare_name_exceptions. }
  split; [done|]. intros E. rewrite E in H. simpl in H.
  unfold comparator_exn in H. destruct H as [?|[?|[?|?]]]; discriminate.
Qed.

(** On well-formed documents with numbers for means the comparator returns
    its records, unless a mean or a quotient leaves the float range. *)
Lemma comparator_returns_on_numbers so bdoc cdoc t :
  well_formed is_number bdoc → well_formed is_number cdoc →
  returns_or_raises overflow (compare_benchmarks so bdoc cdoc t).
Proof.
  intros Hb Hc.
  destruct (benchmarks_by_name_total _ _ Hb) as [bb Hbb].
  destruct (benchmarks_by_name_total _ _ Hc) as [cb Hcb].
  unfold compare_benchmarks. rewrite Hbb, Hcb. simpl.
  apply for_each_returns_or_raises. intros n.
  unfold compare_name, get_or_none.
  destruct (bb !! n) as [b|] eqn:Eb; simpl; [|done].
  destruct (well_formed_entry _ _ _ _ _ Hb Hbb Eb) as (d1 & -> & H1). simpl.
  destruct (cb !! n) as [c|] eqn:Ec; simpl; [|done].
  destruct (well_formed_entry _ _ _ _ _ Hc Hcb Ec) as (d2 & -> & H2). simpl.
  apply returns_or_raises_bind; [|by intros].
  apply calculate_change_numbers.
  - destruct H1 as [-> | H1]; [by eexists|done].
  - destruct H2 as [-> | H2]; [by eexists|done].
Qed.

(** On well-formed documents with floats for means the comparator returns
    its records, whatever the threshold. *)
Lemma comparator_returns_on_floats so bdoc cdoc t :
  well_formed is_float bdoc → well_formed is_float cdoc →
  ∃ recs, compare_benchmarks so bdoc cdoc t = Ok recs.
Proof.
  intros Hb Hc.
  destruct (benchmarks_by_name_total _ _ Hb) as [bb Hbb].
  destruct (benchmarks_by_name_total _ _ Hc) as [cb Hcb].
  unfold compare_benchmarks. rewrite Hbb, Hcb. simpl.
  apply for_each_Ok_all. intros n.
  unfold compare_name, get_or_none.
  destruct (bb !! n) as [b|] eqn:Eb; simpl; [|by eexists].
  destruct (well_formed_entry _ _ _ _ _ Hb Hbb Eb) as (d1 & -> & H1). simpl.
  destruct (cb !! n) as [c|] eqn:Ec; simpl; [|by eexists].
  destruct (well_formed_entry _ _ _ _ _ Hc Hcb Ec) as (d2 & -> & H2). simpl.
  destruct (calculate_change_floats _ _ H1 H2) as [ch ->]. simpl. by eexists.
Qed.

(** ** The report and the printed lines *)

Lemma if_nonempty_length {A} (xs : list A) (line : string) :
  if_nonempty xs line = if decide (length xs = 0) then [] else [line].
Proof. by destruct xs. Qed.

(** A row starts with the name of its record. *)
Lemma detail_row_name (c : comparison) (row : string) :
  detail_row c = Ok row → ∃ rest, row = "| " +:+ name c +:+ " | " +:+ rest.
Proof.
  unfold detail_row. destruct (status c); intros H; ok_inv H; subst row; eauto.
Qed.

Lemma detail_rows_names (comparisons : list comparison) (rows : list string) :
  for_each detail_row comparisons = Ok rows →
  Forall2 (λ c row, detail_row c = Ok row ∧
                    ∃ rest, row = "| " +:+ name c +:+ " | " +:+ rest)
          comparisons rows.
Proof.
  intros H%for_each_Ok. induction H as [|c row cs rows Hc _ IH]; constructor; [|done].
  split; [done|]. by apply detail_row_name.
Qed.

(** The tiers of [format_duration]: the first bound the value reaches picks
    the divisor and the suffix; below a thousand the value itself is
    rendered without decimals. *)
Lemma format_duration_tiers ns n :
  as_number ns = Some n →
  format_duration ns =
    if num_geb n (PFloat f1e9) then
      q ← num_truediv n (PFloat f1e9); s ← format_number false 2 q; Ok (s +:+ "s")
    else if num_geb n (PFloat f1e6) then
      q ← num_truediv n (PFloat f1e6); s ← format_number false 2 q; Ok (s +:+ "ms")
    else if num_geb n (PFloat f1e3) then
      q ← num_truediv n (PFloat f1e3); s ← format_number false 2 q; Ok (s +:+ "Âµs")
    else
      s ← format_number false 0 n; Ok (s +:+ "ns").
Proof. unfold format_duration, operand. by intros ->. Qed.

(** ** Printing *)

Lemma set_stdout_same w : set_stdout (stdout w) w = w.
Proof. by destruct w. Qed.

(** Lines that can all be encoded are all printed. *)
Lemma print_lines_all ls w :
  Forall (λ l, stdout_encodes w l = true) ls →
  print_lines ls w = (set_stdout (stdout w ++ ls) w, Ok ()).
Proof.
  revert w. induction ls as [|l ls IH]; intros w Hall; simpl.
  - by rewrite app_nil_r, set_stdout_same.
  - inversion Hall as [|? ? Hl Hls]; subst. unfold print. rewrite Hl. simpl.
    rewrite IH by done. simpl. by rewrite <- app_assoc.
Qed.

(** Printing stops at the first line that cannot be encoded, with
    [UnicodeEncodeError]; it changes nothing but the standard output. *)
Lemma print_lines_cases ls w :
  ∃ printed,
    (print_lines ls w).1 = set_stdout (stdout w ++ printed) w ∧
    ((print_lines ls w).2 = Ok () ∧ printed = ls ∧
     Forall (λ l, stdout_encodes w l = true) ls
     ∨ (print_lines ls w).2 = Raise UnicodeEncodeError ∧
       ∃ l rest, ls = printed ++ l :: rest ∧ stdout_encodes w l = false).
Proof.
  revert w. induction ls as [|l ls IH]; intros w; simpl.
  - exists []. rewrite app_nil_r, set_stdout_same. split; [done|]. by left.
  - unfold print. destruct (stdout_encodes w l) eqn:Hl; simpl.
    + destruct (IH (set_stdout (stdout w ++ [l]) w)) as (printed & Hw & Hr).
      exists (l :: printed). split.
      { rewrite Hw. simpl. unfold set_stdout. simpl. by rewrite <- app_assoc. }
      destruct Hr as [(Hr & -> & Hall)|(Hr & l' & rest & -> & Hl')].
      * left. split; [done|]. split; [done|]. by constructor.
      * right. split; [done|]. by exists l', rest.
    + exists []. rewrite app_nil_r, set_stdout_same. split; [done|]. right.
      split; [done|]. by exists l, ls.
Qed.

(** The loop over the regressions prints their lines. *)
Lemma print_regressions_lines rs pcts w :
  Forall2 (λ r s, format_number false 1 (change_percent r) = Ok s) rs pcts →
  print_regressions rs w = print_lines (zip_with regression_line rs pcts) w.
Proof.
  intros H. revert w. induction H as [|r s rs pcts Hs _ IH]; intros w; simpl; [done|].
  rewrite Hs. unfold print. destruct (stdout_encodes w (regression_line r s)); simpl;
    [apply IH|done].
Qed.

Lemma Forall_renders (rs : list comparison) :
  Forall (λ r, ∃ s, format_number false 1 (change_percent r) = Ok s) rs →
  ∃ pcts, Forall2 (λ r s, format_number false 1 (change_percent r) = Ok s) rs pcts.
Proof.
  induction 1 as [|r rs [s Hs] _ [pcts IH]].
  - exists []. constructor.
  - exists (s :: pcts). by constructor.
Qed.

(** ** The sample runs *)

Lemma enumerates_elements : enumerates elements.
Proof. by intros X. Defined.

Lemma enumerates_elements_rev : enumerates elements_rev.
Proof. intros X. apply reverse_Permutation. Defined.

Lemma ex_records_eq :
  compare_benchmarks elements ex_baseline ex_current f10 = Ok ex_records.
Proof. by vm_compute. Defined.

Lemma ex_record_in (i : nat) : i < 5 → ex_record i ∈ ex_records.
Proof.
  intros Hi. apply (list_elem_of_lookup_2 _ i).
  do 5 (destruct i as [|i]; [by vm_compute|]). lia.
Defined.

Lemma ex_prepared_eq flag :
  prepare ex_loads elements (ex_args flag) ex_world = Ok (ex_prepared flag).
Proof. destruct flag; by vm_compute. Defined.

Lemma ex_prepared_records flag : (ex_prepared flag).1 = ex_records.
Proof. destruct flag; by vm_compute. Defined.

Lemma ex_output_writable flag : writable ex_world (args_output (ex_args flag)).
Proof. intros n Hn. destruct flag; vm_compute in Hn; discriminate. Defined.

Lemma ex_float_run_well_formed : well_formed is_float ex_float_run.
Proof.
  split.
  - eexists. split; [done|]. right. eexists. by vm_compute.
  - assert (items ex_float_run =
            [JObj (list_to_map [("name", JStr "emit"); ("mean_ns", JFloat f1e3)]);
             bench_no_mean "idle"]) as -> by (by vm_compute).
    apply Forall_cons_2; [|apply Forall_cons_2; [|apply Forall_nil_2]].
    + split; [eexists|]; by vm_compute.
    + split; [eexists|]; by vm_compute.
Qed.

Lemma ex_baseline_well_formed : well_formed is_number ex_baseline.
Proof.
  split.
  - eexists. split; [done|]. right. eexists. by vm_compute.
  - assert (items ex_baseline =
            [bench "parse" 1000000; bench "emit" 1500; bench "idle" 0;
             bench "gone" 999; bench "emit" 2000]) as -> by (by vm_compute).
    repeat (apply Forall_cons_2; [split; [eexists; by vm_compute|]|]);
      try apply Forall_nil_2; unfold mean_ok; simpl;
      rewrite lookup_insert_ne, lookup_insert_eq by done; by eexists.
Qed.

Example float_run_returns t :
  ∃ recs, compare_benchmarks elements ex_float_run ex_float_run t = Ok recs.
Proof.
  apply comparator_returns_on_floats; apply ex_float_run_well_formed.
Qed.

(** * The properties of the specification *)

(** ** C1: change and status of a benchmark present in both runs *)

(** C1, as the code has it.  For a name present in both runs whose baseline
    mean is not zero, the record carries the change
    [((current - baseline) / baseline) * 100]; it is a regression exactly
    when the change exceeds the threshold, an improvement exactly when it
    does not and is below the negated threshold, and unchanged otherwise.
    When the threshold is not negative the two tests exclude each other, so
    "improvement exactly when the change is below the negated threshold"
    holds as worded, and a change equal to the threshold or to its negation
    is unchanged. *)
Theorem comparator_change_and_status so bdoc cdoc t recs n b c :
  enumerates so →
  compare_benchmarks so bdoc cdoc t = Ok recs →
  entry (items bdoc) n = Some b → entry (items cdoc) n = Some c →
  py_eq_zero (mean_ns b) = false →
  ∃ r bm cm change,
    r ∈ recs ∧ name r = n ∧
    as_number (mean_ns b) = Some bm ∧ as_number (mean_ns c) = Some cm ∧
    percent_change bm cm = Ok change ∧
    change_percent r = change ∧
    (status r = regression ↔ num_gtb change (PFloat t) = true) ∧
    (status r = improvement ↔
       num_gtb change (PFloat t) = false ∧
       num_ltb change (PFloat (SFopp t)) = true) ∧
    (status r = unchanged ↔
       num_gtb change (PFloat t) = false ∧
       num_ltb change (PFloat (SFopp t)) = false) ∧
    (f64_negative t = false →
       classified_as_stated change t (status r) ∧
       (num_eqb change (PFloat t) = true ∨
        num_eqb change (PFloat (SFopp t)) = true → status r = unchanged)).
Proof.
  intros Hso H Hb Hc Hnz.
  destruct (record_of_both _ _ _ _ _ _ _ _ Hso H Hb Hc) as [(r & Hr & Hn) Hall].
  destruct (Hall r Hr Hn) as (ch & Hch & ->).
  destruct (calculate_change_nonzero _ _ _ Hnz Hch) as (bm & cm & Hbm & Hcm & Hp).
  exists (Comparison n (classify ch t) b c ch), bm, cm, ch. simpl.
  destruct (classify_spec ch t) as (Hr' & Hi & Hu).
  do 9 (split; [done|]).
  intros Ht. split; [by apply classify_as_stated|].
  intros He. apply Hu. destruct He as [He|He].
  - by apply at_threshold.
  - by apply at_minus_threshold.
Qed.

Lemma comparator_change_and_status_witness :
  ∃ r bm cm change,
    r ∈ ex_records ∧ name r = "parse" ∧
    as_number (mean_ns (bench "parse" 1000000)) = Some bm ∧
    as_number (mean_ns (bench "parse" 1150000)) = Some cm ∧
    percent_change bm cm = Ok change ∧
    change_percent r = change ∧
    (status r = regression ↔ num_gtb change (PFloat f10) = true) ∧
    (status r = improvement ↔
       num_gtb change (PFloat f10) = false ∧
       num_ltb change (PFloat (SFopp f10)) = true) ∧
    (status r = unchanged ↔
       num_gtb change (PFloat f10) = false ∧
       num_ltb change (PFloat (SFopp f10)) = false) ∧
    (f64_negative f10 = false →
       classified_as_stated change f10 (status r) ∧
       (num_eqb change (PFloat f10) = true ∨
        num_eqb change (PFloat (SFopp f10)) = true → status r = unchanged)).
Proof.
  apply (comparator_change_and_status elements ex_baseline ex_current f10
           ex_records "parse" _ _ enumerates_elements ex_records_eq).
  - by vm_compute.
  - by vm_compute.
  - by vm_compute.
Defined.

(** C1 as worded fails at a negative threshold: with equal means of 100 and
    the threshold -10 the change 0.0 is below the negated threshold 10, and
    the record is a regression, not an improvement. *)
Lemma comparator_status_negative_threshold :
  let recs := returned (compare_benchmarks elements (ex_single 100) (ex_single 100) f_minus10) in
  compare_benchmarks elements (ex_single 100) (ex_single 100) f_minus10 = Ok recs ∧
  entry (items (ex_single 100)) "steady" = Some (bench "steady" 100) ∧
  py_eq_zero (mean_ns (bench "steady" 100)) = false ∧
  ∃ r, recs = [r] ∧ name r = "steady" ∧
       num_ltb (change_percent r) (PFloat (SFopp f_minus10)) = true ∧
       status r = regression ∧
       ¬ classified_as_stated (change_percent r) f_minus10 (status r).
Proof.
  split; [by vm_compute|]. split; [by vm_compute|]. split; [by vm_compute|].
  eexists. split; [by vm_compute|]. split; [by vm_compute|].
  split; [by vm_compute|]. split; [by vm_compute|].
  intros (_ & Hi & _). simpl in Hi.
  assert (regression = improvement) as Habs; [|discriminate Habs].
  apply Hi. by vm_compute.
Qed.

(** The three worked cases of the specification, at the threshold 10.0:
    1000000 to 1150000 is +15.0, a regression; to 1050000 is +5.0,
    unchanged; to 850000 is -15.0, an improvement.  And 1000000 to 1100000
    is exactly 10.0, unchanged. *)
Example change_worked_cases :
  calculate_change (JInt 1000000) (JInt 1150000) = Ok (PFloat f15) ∧
  classify (PFloat f15) f10 = regression ∧
  calculate_change (JInt 1000000) (JInt 1050000) = Ok (PFloat f5) ∧
  classify (PFloat f5) f10 = unchanged ∧
  calculate_change (JInt 1000000) (JInt 850000) = Ok (PFloat (SFopp f15)) ∧
  classify (PFloat (SFopp f15)) f10 = improvement ∧
  calculate_change (JInt 1000000) (JInt 1100000) = Ok (PFloat f10) ∧
  classify (PFloat f10) f10 = unchanged.
Proof. repeat split; by vm_compute. Qed.

(** ** C2: the names of the records *)

(** C2.  The records returned by the comparator carry each name of the
    union of the two runs' benchmark names exactly once and no other name,
    in ascending lexicographic order. *)
Theorem comparator_names_sorted_union so bdoc cdoc t recs :
  enumerates so →
  compare_benchmarks so bdoc cdoc t = Ok recs →
  NoDup (name <$> recs) ∧
  Sorted String.le (name <$> recs) ∧
  ∀ n, n ∈ name <$> recs ↔
       (∃ b, b ∈ items bdoc ∧ name_of b = Some n) ∨
       (∃ b, b ∈ items cdoc ∧ name_of b = Some n).
Proof.
  intros Hso H.
  destruct (compare_benchmarks_Ok _ _ _ _ _ H) as (bb & cb & Hb & Hc & -> & _).
  destruct (sorted_spec so (dom bb ∪ dom cb) Hso) as (Hnd & Hs & Hin).
  split; [done|]. split; [done|].
  intros n. rewrite Hin, elem_of_union, !elem_of_dom, Hb, Hc.
  by rewrite !entry_is_Some.
Qed.

Lemma comparator_names_sorted_union_witness :
  NoDup (name <$> ex_records) ∧
  Sorted String.le (name <$> ex_records) ∧
  ∀ n, n ∈ name <$> ex_records ↔
       (∃ b, b ∈ items ex_baseline ∧ name_of b = Some n) ∨
       (∃ b, b ∈ items ex_current ∧ name_of b = Some n).
Proof.
  exact (comparator_names_sorted_union elements ex_baseline ex_current f10
           ex_records enumerates_elements ex_records_eq).
Defined.

(** ** C3: a baseline mean of zero *)

(** C3, as the code has it.  For a name present in both runs whose baseline
    mean equals zero (or is absent), whatever the current entry holds, the
    call of [calculate_change] returns 0 without dividing, the record's
    change is 0, and its status is [unchanged] for every threshold that is
    not negative; for a negative threshold the status is [regression]. *)
Theorem comparator_zero_baseline so bdoc cdoc t recs n b c :
  enumerates so →
  compare_benchmarks so bdoc cdoc t = Ok recs →
  entry (items bdoc) n = Some b → entry (items cdoc) n = Some c →
  py_eq_zero (mean_ns b) = true →
  (∀ v, calculate_change (mean_ns b) v = Ok (PInt 0)) ∧
  (∃ r, r ∈ recs ∧ name r = n) ∧
  ∀ r, r ∈ recs → name r = n →
    change_percent r = PInt 0 ∧
    status r = (if f64_negative t then regression else unchanged) ∧
    (f64_negative t = false → status r = unchanged).
Proof.
  intros Hso H Hb Hc Hz.
  destruct (record_of_both _ _ _ _ _ _ _ _ Hso H Hb Hc) as [Hex Hall].
  split; [intros v; by apply calculate_change_zero|]. split; [done|].
  intros r Hr Hn. destruct (Hall r Hr Hn) as (ch & Hch & ->).
  rewrite (calculate_change_zero _ _ Hz) in Hch. injection Hch as <-.
  simpl. rewrite classify_zero. split; [done|]. split; [done|].
  by intros ->.
Qed.

Lemma comparator_zero_baseline_witness :
  (∀ v, calculate_change (mean_ns (bench "idle" 0)) v = Ok (PInt 0)) ∧
  (∃ r, r ∈ ex_records ∧ name r = "idle") ∧
  ∀ r, r ∈ ex_records → name r = "idle" →
    change_percent r = PInt 0 ∧
    status r = (if f64_negative f10 then regression else unchanged) ∧
    (f64_negative f10 = false → status r = unchanged).
Proof.
  apply (comparator_zero_baseline elements ex_baseline ex_current f10
           ex_records "idle" (bench "idle" 0) (bench "idle" 5)
           enumerates_elements ex_records_eq).
  - by vm_compute.
  - by vm_compute.
  - by vm_compute.
Defined.

(** C3 as worded fails at a negative threshold: a baseline mean of 0, a
    current mean of 5 and the threshold -1 give the change 0 and the status
    [regression]. *)
Lemma comparator_zero_baseline_negative_threshold :
  let bdoc := run "v1" [bench "idle" 0] in
  let cdoc := run "v2" [bench "idle" 5] in
  entry (items bdoc) "idle" = Some (bench "idle" 0) ∧
  entry (items cdoc) "idle" = Some (bench "idle" 5) ∧
  py_eq_zero (mean_ns (bench "idle" 0)) = true ∧
  compare_benchmarks elements bdoc cdoc f_minus1 =
    Ok [Comparison "idle" regression (bench "idle" 0) (bench "idle" 5) (PInt 0)] ∧
  regression ≠ unchanged.
Proof. repeat split; by vm_compute. Qed.

(** ** C4: new and removed benchmarks *)

(** C4.  A name present only in the current run has a record, and that
    record has status [new], change 0 and no baseline reference; a name
    present only in the baseline run has a record, and that record has
    status [removed], change 0 and no current reference. *)
Theorem comparator_new_and_removed so bdoc cdoc t recs n :
  enumerates so →
  compare_benchmarks so bdoc cdoc t = Ok recs →
  (entry (items bdoc) n = None → is_Some (entry (items cdoc) n) →
   (∃ r, r ∈ recs ∧ name r = n) ∧
   ∀ r, r ∈ recs → name r = n →
     status r = new ∧ change_percent r = PInt 0 ∧ baseline r = JNull ∧
     Some (current r) = entry (items cdoc) n)
  ∧
  (entry (items cdoc) n = None → is_Some (entry (items bdoc) n) →
   (∃ r, r ∈ recs ∧ name r = n) ∧
   ∀ r, r ∈ recs → name r = n →
     status r = removed ∧ change_percent r = PInt 0 ∧ current r = JNull ∧
     Some (baseline r) = entry (items bdoc) n).
Proof.
  intros Hso H. split.
  - intros Hb Hc. split.
    { eapply compare_benchmarks_covers; eauto. }
    intros r Hr <-.
    destruct (record_cases _ _ _ _ _ _ Hso H Hr)
      as [(_ & d2 & Hc' & ->)|[(d1 & Hb' & _)|(d1 & d2 & ch & Hb' & _)]].
    + simpl in *. by rewrite Hc'.
    + by rewrite Hb in Hb'.
    + by rewrite Hb in Hb'.
  - intros Hc Hb. split.
    { eapply compare_benchmarks_covers; eauto. }
    intros r Hr <-.
    destruct (record_cases _ _ _ _ _ _ Hso H Hr)
      as [(Hb' & _)|[(d1 & Hb' & _ & ->)|(d1 & d2 & ch & _ & Hc' & _)]].
    + rewrite Hb' in Hb. by destruct Hb.
    + simpl in *. by rewrite Hb'.
    + by rewrite Hc in Hc'.
Qed.

Lemma comparator_new_and_removed_witness :
  ((∃ r, r ∈ ex_records ∧ name r = "fresh") ∧
   ∀ r, r ∈ ex_records → name r = "fresh" →
     status r = new ∧ change_percent r = PInt 0 ∧ baseline r = JNull ∧
     Some (current r) = entry (items ex_current) "fresh")
  ∧
  ((∃ r, r ∈ ex_records ∧ name r = "gone") ∧
   ∀ r, r ∈ ex_records → name r = "gone" →
     status r = removed ∧ change_percent r = PInt 0 ∧ current r = JNull ∧
     Some (baseline r) = entry (items ex_baseline) "gone").
Proof.
  split.
  - apply (comparator_new_and_removed elements ex_baseline ex_current f10
             ex_records "fresh" enumerates_elements ex_records_eq).
    + by vm_compute.
    + exists (bench "fresh" 3000000000). by vm_compute.
  - apply (comparator_new_and_removed elements ex_baseline ex_current f10
             ex_records "gone" enumerates_elements ex_records_eq).
    + by vm_compute.
    + exists (bench "gone" 999). by vm_compute.
Defined.

(** ** The script after the report is rendered *)

Lemma prepared_regressions_render loads so args w recs report :
  prepare loads so args w = Ok (recs, report) →
  ∃ pcts, Forall2 (λ r s, format_number false 1 (change_percent r) = Ok s)
                  (with_status regression recs) pcts.
Proof.
  intros Hp. apply Forall_renders, Forall_forall. intros r Hr.
  unfold prepare in Hp. ok_inv Hp.
  apply (change_renders so a a0 (args_threshold args) a1); [done|].
  apply list_elem_of_filter in Hr as [_ Hr]. by simplify_eq.
Qed.

(** [main] writes the report, prints its lines and ends. *)
Lemma main_prepared loads so args w recs report pcts :
  prepare loads so args w = Ok (recs, report) →
  Forall2 (λ r s, format_number false 1 (change_percent r) = Ok s)
          (with_status regression recs) pcts →
  main loads so args w =
    and_then (write_file (args_output args) report w) (λ _ w1,
    and_then (print_lines (script_lines args (with_status regression recs) pcts) w1)
      (λ _ w2,
       (w2, if bool_decide (with_status regression recs ≠ []) &&
               args_fail_on_regression args
            then Raise (SystemExit 1) else Ok ()))).
Proof.
  intros Hp Hpcts. unfold main. rewrite Hp.
  destruct (write_file (args_output args) report w) as [w1 [[]| |]]; simpl; try done.
  unfold script_lines. simpl. unfold print at 1 3.
  destruct (stdout_encodes w1 (written_line args)); simpl; [|done].
  destruct (bool_decide (with_status regression recs ≠ []) &&
            args_fail_on_regression args); simpl; [|done].
  unfold print.
  destruct (stdout_encodes _ (detected_line _)); simpl; [|done].
  by rewrite (print_regressions_lines _ _ _ Hpcts).
Qed.

(** [open] for writing fails and nothing changes, or the file is created or
    emptied and then holds the text, if the text can be encoded. *)
Lemma write_file_cases path text w :
  (∃ n k, fs w !! locate w path = Some n ∧ write_error n = Some k ∧
          write_file path text w = (w, Raise (os_exn k)))
  ∨ (writable w path ∧
     ∃ r, write_file path text w =
            (set_fs (<[locate w path :=
                         Node (if file_encodes w text then text else "") r None]>
                       (fs w)) w,
             if file_encodes w text then Ok () else Raise UnicodeEncodeError)).
Proof.
  unfold write_file, writable.
  destruct (fs w !! locate w path) as [n|] eqn:Hn; simpl.
  - destruct (write_error n) as [k|] eqn:Hk.
    + left. by exists n, k.
    + right. split; [by intros ? [= <-]|]. exists (read_error n).
      by destruct (file_encodes w text).
  - right. split; [done|]. exists None. by destruct (file_encodes w text).
Qed.

Lemma with_status_nonempty st (cs : list comparison) :
  with_status st cs ≠ [] ↔ ∃ c, c ∈ cs ∧ status c = st.
Proof.
  unfold with_status. split.
  - intros H. destruct (filter _ cs) as [|c l] eqn:E; [done|].
    assert (c ∈ filter (λ c, status c = st) cs) as Hin by (rewrite E; by left).
    apply list_elem_of_filter in Hin as [Hst Hc]. by exists c.
  - intros (c & Hc & Hst) E.
    assert (c ∈ filter (λ c, status c = st) cs) as Hin
      by (by apply list_elem_of_filter).
    rewrite E in Hin. by apply elem_of_nil in Hin.
Qed.

(** ** C5: the end of the process *)

(** C5.  Once the report is rendered, its file can be opened and holds the
    report afterwards.  Then, on a standard output that encodes every text:
    if the flag is set and at least one record is a regression, the script
    prints the confirmation, the count and one line per regression with its
    name and its percentage, and ends with code 1; if the flag is not set,
    or no record is a regression, it prints the confirmation and ends with
    code 0, however many regressions there are. *)
Theorem main_exit_code loads so args w comparisons report :
  prepare loads so args w = Ok (comparisons, report) →
  writable w (args_output args) →
  file_encodes w report = true →
  (∀ line, stdout_encodes w line = true) →
  let regressions := filter (λ c, status c = regression) comparisons in
  let end_ := main loads so args w in
  file_content end_.1 (args_output args) = Some report ∧
  (args_fail_on_regression args = true →
   (∃ c, c ∈ comparisons ∧ status c = regression) →
   exit_code end_.2 = Some 1%Z ∧
   ∃ pcts,
     Forall2 (λ r s, format_number false 1 (change_percent r) = Ok s)
             regressions pcts ∧
     stdout end_.1 =
       stdout w ++
       ["Comparison report written to " +:+ args_output args;
        nl +:+ "âš ï¸  " +:+ pretty (length regressions) +:+ " regressions detected!"] ++
       zip_with (λ r s, "  - " +:+ name r +:+ ": +" +:+ s +:+ "%") regressions pcts) ∧
  (args_fail_on_regression args = false ∨
   (∀ c, c ∈ comparisons → status c ≠ regression) →
   exit_code end_.2 = Some 0%Z ∧
   stdout end_.1 = stdout w ++ ["Comparison report written to " +:+ args_output args]).
Proof.
  intros Hp Hout Henc Hprint regressions end_. subst end_.
  destruct (prepared_regressions_render _ _ _ _ _ _ Hp) as [pcts Hpcts].
  rewrite (main_prepared _ _ _ _ _ _ _ Hp Hpcts).
  destruct (write_file_cases (args_output args) report w)
    as [(n & k & Hn & Hk & _)|(_ & r & ->)].
  { rewrite (Hout n Hn) in Hk. discriminate. }
  rewrite Henc. cbn [and_then].
  rewrite print_lines_all by (apply Forall_forall; intros; apply Hprint).
  cbn [and_then fst snd].
  split; [unfold file_content; simpl; by rewrite lookup_insert_eq|].
  fold (with_status regression comparisons) in regressions. fold regressions in Hpcts |- *.
  unfold script_lines. split.
  - intros Hflag Hreg. rewrite Hflag.
    apply with_status_nonempty in Hreg. fold regressions in Hreg.
    rewrite bool_decide_eq_true_2 by done. simpl.
    split; [done|]. exists pcts. split; [done|]. reflexivity.
  - intros Hnone.
    assert (bool_decide (regressions ≠ []) && args_fail_on_regression args = false) as ->.
    { destruct Hnone as [-> | Hnone]; [apply andb_false_r|].
      rewrite bool_decide_eq_false_2; [done|].
      intros (c & Hc & Hst)%with_status_nonempty. by apply (Hnone c). }
    done.
Qed.

Lemma main_exit_code_witness :
  (file_content (main ex_loads elements (ex_args true) ex_world).1 "comparison.md" =
     Some (ex_prepared true).2 ∧
   exit_code (main ex_loads elements (ex_args true) ex_world).2 = Some 1%Z) ∧
  (file_content (main ex_loads elements (ex_args false) ex_world).1 "comparison.md" =
     Some (ex_prepared false).2 ∧
   exit_code (main ex_loads elements (ex_args false) ex_world).2 = Some 0%Z).
Proof.
  split.
  - destruct (main_exit_code ex_loads elements (ex_args true) ex_world
                (ex_prepared true).1 (ex_prepared true).2) as (Hfile & Hfail & _).
    + rewrite ex_prepared_eq. by destruct (ex_prepared true).
    + apply ex_output_writable.
    + reflexivity.
    + reflexivity.
    + split; [exact Hfile|]. apply Hfail; [reflexivity|].
      exists (ex_record 4). split; [|vm_compute; reflexivity].
      rewrite (ex_prepared_records true). apply ex_record_in. lia.
  - destruct (main_exit_code ex_loads elements (ex_args false) ex_world
                (ex_prepared false).1 (ex_prepared false).2) as (Hfile & _ & Hpass).
    + rewrite ex_prepared_eq. by destruct (ex_prepared false).
    + apply ex_output_writable.
    + reflexivity.
    + reflexivity.
    + split; [exact Hfile|]. apply Hpass. by left.
Defined.

(** The sample run with the flag set: code 1 and the regression listed. *)
Example main_sample_fails :
  let end_ := main ex_loads elements (ex_args true) ex_world in
  exit_code end_.2 = Some 1%Z ∧
  stdout end_.1 = [written_line (ex_args true); detected_line 1; "  - parse: +15.0%"].
Proof. by vm_compute. Qed.

(** The same run without the flag: code 0. *)
Example main_sample_passes :
  let end_ := main ex_loads elements (ex_args false) ex_world in
  exit_code end_.2 = Some 0%Z ∧
  stdout end_.1 = [written_line (ex_args false)].
Proof. by vm_compute. Qed.

(** The same run when the output is a directory, when its directory is not
    there, and under a locale that encodes ASCII only: code 1 each time,
    and in the last case an empty output file. *)
Example main_sample_output_fails :
  main ex_loads elements (Args "base.json" "curr.json" "reports" f10 false) ex_world =
    (ex_world, Raise IsADirectoryError) ∧
  main ex_loads elements
       (Args "base.json" "curr.json" "nowhere/comparison.md" f10 false) ex_world =
    (ex_world, Raise FileNotFoundError) ∧
  (let end_ := main ex_loads elements (ex_args false) ex_ascii_world in
   end_.2 = Raise UnicodeEncodeError ∧
   file_content end_.1 "comparison.md" = Some "" ∧ stdout end_.1 = []).
Proof. by vm_compute. Qed.

(** Other ends of the sample run: a baseline that is not there, an output
    file that may only be read, and a standard output that encodes ASCII
    only, on which the run stops at the line of the count. *)
Example main_sample_other_ends :
  main ex_loads elements ex_args_missing ex_world =
    (ex_world, Raise FileNotFoundError) ∧
  main ex_loads elements (Args "base.json" "curr.json" "frozen.md" f10 false) ex_world =
    (ex_world, Raise PermissionError) ∧
  (let end_ := main ex_loads elements (ex_args true) ex_ascii_stdout_world in
   end_.2 = Raise UnicodeEncodeError ∧
   file_content end_.1 "comparison.md" = Some (ex_prepared true).2 ∧
   stdout end_.1 = ["Comparison report written to comparison.md"]).
Proof. by vm_compute. Qed.

(** ** C6: the loader and the ['benchmarks'] field *)

Lemma well_formed_indexable ok_mean doc : well_formed ok_mean doc → indexable doc.
Proof.
  intros [Hd Hall]. split; [done|].
  eapply Forall_impl; [exact Hall|]. intros b [Hn _]. split; [done|].
  unfold mean_ok. by destruct (mean_ns_field b).
Qed.

(** C6, as the code has it.  The loader fails with an I/O error on a path
    that leads to nothing or to something that may not be read, and with a
    parse error on a content that is not text or not JSON; it returns a
    document exactly when the path leads to a readable file whose content
    [json.load] accepts.  A document without a ['benchmarks'] field is
    compared, in either position, as if the field held an empty list.  A
    ['benchmarks'] field that holds something else than a list is not
    tolerated: unless the value is an empty string or an empty object, the
    comparator raises [TypeError] when the document is the baseline, and
    also when it is the current run and the benchmarks of the baseline can
    be filed by name. *)
Theorem loader_and_benchmarks_field loads so w path d other t :
  (unreadable w path → ∃ e, load_results loads w path = Raise e ∧ io_error e) ∧
  (∀ text f, holds w path text → loads text = inl f → malformed f →
   ∃ e, load_results loads w path = Raise e ∧ parse_error e) ∧
  (∀ v, load_results loads w path = Ok v ↔
        ∃ text, holds w path text ∧ loads text = inr v) ∧
  (d !! "benchmarks" = None →
   compare_benchmarks so (JObj d) other t =
     compare_benchmarks so (JObj (<["benchmarks" := JArr []]> d)) other t ∧
   compare_benchmarks so other (JObj d) t =
     compare_benchmarks so other (JObj (<["benchmarks" := JArr []]> d)) t) ∧
  (∀ v, d !! "benchmarks" = Some v → ¬ is_list v → ¬ empty_iterable v →
   compare_benchmarks so (JObj d) other t = Raise TypeError ∧
   (indexable other → compare_benchmarks so other (JObj d) t = Raise TypeError)).
Proof.
  unfold load_results, unreadable, holds, io_error, parse_error.
  split; [|split; [|split; [|split]]].
  - destruct (fs w !! locate w path) as [n|]; [|eauto].
    intros [k ->]. exists (os_exn k). split; [done|].
    destruct k; simpl; auto 6.
  - intros text f (n & -> & -> & ->) -> [-> | ->]; simpl; eauto.
  - intros v. split.
    + destruct (fs w !! locate w path) as [n|]; [|done].
      destruct (read_error n) eqn:Hr; [done|].
      destruct (loads (content n)) as [f|v'] eqn:Hl; [done|].
      intros [= ->]. exists (content n). split; [by exists n|done].
    + by intros (text & (n & -> & -> & ->) & ->).
  - intros Hd. unfold compare_benchmarks.
    rewrite (benchmarks_by_name_missing d Hd).
    rewrite (benchmarks_by_name_empty (<["benchmarks" := JArr []]> d) (JArr []));
      [done|by rewrite lookup_insert_eq|by left].
  - intros v Hd Hl He. unfold compare_benchmarks.
    rewrite (benchmarks_by_name_not_list d v Hd Hl He). split; [done|].
    intros Hother.
    by destruct (benchmarks_by_name_total _ _ Hother) as [m ->].
Qed.

Lemma loader_and_benchmarks_field_witness :
  (∃ e, load_results ex_loads ex_world "nowhere.json" = Raise e ∧ io_error e) ∧
  (∃ e, load_results ex_loads ex_world "locked.json" = Raise e ∧ io_error e) ∧
  (∃ e, load_results ex_loads ex_world "reports" = Raise e ∧ io_error e) ∧
  (∃ e, load_results ex_loads ex_world "bad.json" = Raise e ∧ parse_error e) ∧
  load_results ex_loads ex_world "./base.json" = Ok ex_baseline ∧
  compare_benchmarks elements (JObj ∅) ex_current f10 =
    compare_benchmarks elements (JObj (<["benchmarks" := JArr []]> ∅)) ex_current f10 ∧
  compare_benchmarks elements (JObj {["benchmarks" := JInt 3]}) ex_baseline f10 =
    Raise TypeError ∧
  compare_benchmarks elements ex_baseline (JObj {["benchmarks" := JInt 3]}) f10 =
    Raise TypeError.
Proof.
  pose proof (loader_and_benchmarks_field ex_loads elements ex_world
                "nowhere.json" ∅ ex_current f10) as (H1 & _ & _ & H4 & _).
  pose proof (loader_and_benchmarks_field ex_loads elements ex_world
                "locked.json" ∅ ex_current f10) as (H2 & _).
  pose proof (loader_and_benchmarks_field ex_loads elements ex_world
                "reports" ∅ ex_current f10) as (H2' & _).
  pose proof (loader_and_benchmarks_field ex_loads elements ex_world
                "bad.json" ∅ ex_current f10) as (_ & H3 & _).
  pose proof (loader_and_benchmarks_field ex_loads elements ex_world
                "./base.json" {["benchmarks" := JInt 3]} ex_baseline f10)
    as (_ & _ & H5 & _ & H6).
  split; [apply H1; by vm_compute|].
  split; [apply H2; vm_compute; by eexists|].
  split; [apply H2'; vm_compute; by eexists|].
  split; [apply (H3 "{" NotJSON); [by exists (File "{")|reflexivity|by right]|].
  split; [apply H5; exists "B"; split; [by exists (File "B")|reflexivity]|].
  split; [apply H4; by vm_compute|].
  destruct (H6 (JInt 3)) as [H7 H8].
  - by vm_compute.
  - by intros [].
  - intros [?|[?|?]]; discriminate.
  - split; [exact H7|].
    apply H8, (well_formed_indexable is_number), ex_baseline_well_formed.
Defined.

(** C6 as worded fails on a wrongly typed field: with ['benchmarks'] set to
    [null] the comparator raises, where an empty collection gives the
    records of the other run. *)
Lemma benchmarks_null_not_tolerated :
  compare_benchmarks elements (JObj {["benchmarks" := JNull]}) ex_current f10 =
    Raise TypeError ∧
  ∃ recs, compare_benchmarks elements (JObj {["benchmarks" := JArr []]}) ex_current f10 =
            Ok recs ∧ length recs = 4.
Proof. split; [by vm_compute|]. eexists. split; by vm_compute. Qed.

(** ** C7: the layout of the report *)

Lemma run_line_label label info line :
  run_line label info = Ok line → ∃ version, line = "- " +:+ label +:+ ": " +:+ version.
Proof.
  unfold run_line. intros H. ok_inv H. subst line. eexists. reflexivity.
Qed.

(** C7, as the code has it.  The report is the summary heading, the count
    lines, the table heading, one row per record in the order of the records
    (each starting with the name of its record) and the run information,
    joined by newlines.  Among the count lines the one for unchanged
    benchmarks is always there; the ones for regressions, improvements and
    new benchmarks are there exactly when their count is not zero; removed
    benchmarks have no count line. *)
Theorem report_layout comparisons binfo cinfo text :
  generate_markdown comparisons binfo cinfo = Ok text →
  let count st := length (filter (λ c, status c = st) comparisons) in
  ∃ rows bl cl,
    text =
      String.concat (String "010"%char "")
        (["### Summary"; ""] ++
         (if decide (count regression = 0) then []
          else ["ğŸ”´ **" +:+ pretty (count regression) +:+ " regressions detected**"]) ++
         (if decide (count improvement = 0) then []
          else ["ğŸŸ¢ **" +:+ pretty (count improvement) +:+ " improvements**"]) ++
         ["âšª " +:+ pretty (count unchanged) +:+ " unchanged"] ++
         (if decide (count new = 0) then []
          else ["ğŸ†• " +:+ pretty (count new) +:+ " new benchmarks"]) ++
         [""; "### Details"; "";
          "| Benchmark | Baseline | Current | Change |";
          "|-----------|----------|---------|--------|"] ++
         rows ++
         [""; "<details>"; "<summary>Run Information</summary>"; "";
          bl; cl; ""; "</details>"]) ∧
    Forall2 (λ c row, ∃ rest, row = "| " +:+ name c +:+ " | " +:+ rest)
            comparisons rows ∧
    (∃ version, bl = "- Baseline: " +:+ version) ∧
    (∃ version, cl = "- Current: " +:+ version).
Proof.
  intros H count. unfold generate_markdown in H. ok_inv H.
  unfold report_lines in Ha. ok_inv Ha. subst text a.
  exists a0, a1, a2. split; [|split; [|split]].
  - f_equal. unfold summary_lines. rewrite !if_nonempty_length.
    rewrite <- !app_assoc. reflexivity.
  - eapply Forall2_impl; [by apply detail_rows_names|]. by intros c row [_ ?].
  - destruct (run_line_label _ _ _ Ha1) as [v ->]. by exists v.
  - destruct (run_line_label _ _ _ Ha2) as [v ->]. by exists v.
Qed.

Lemma ex_report_eq :
  generate_markdown ex_records ex_baseline ex_current = Ok (ex_prepared false).2.
Proof. vm_compute. reflexivity. Defined.

Lemma report_layout_witness :
  let count st := length (filter (λ c, status c = st) ex_records) in
  ∃ rows bl cl,
    (ex_prepared false).2 =
      String.concat (String "010"%char "")
        (["### Summary"; ""] ++
         (if decide (count regression = 0) then []
          else ["ğŸ”´ **" +:+ pretty (count regression) +:+ " regressions detected**"]) ++
         (if decide (count improvement = 0) then []
          else ["ğŸŸ¢ **" +:+ pretty (count improvement) +:+ " improvements**"]) ++
         ["âšª " +:+ pretty (count unchanged) +:+ " unchanged"] ++
         (if decide (count new = 0) then []
          else ["ğŸ†• " +:+ pretty (count new) +:+ " new benchmarks"]) ++
         [""; "### Details"; "";
          "| Benchmark | Baseline | Current | Change |";
          "|-----------|----------|---------|--------|"] ++
         rows ++
         [""; "<details>"; "<summary>Run Information</summary>"; "";
          bl; cl; ""; "</details>"]) ∧
    Forall2 (λ c row, ∃ rest, row = "| " +:+ name c +:+ " | " +:+ rest)
            ex_records rows ∧
    (∃ version, bl = "- Baseline: " +:+ version) ∧
    (∃ version, cl = "- Current: " +:+ version).
Proof.
  apply (report_layout ex_records ex_baseline ex_current). apply ex_report_eq.
Defined.

(** C7 as worded fails when a count is zero: for the empty list of records
    the summary is the single line for unchanged benchmarks, with no line
    for regressions, improvements or new benchmarks. *)
Lemma report_summary_without_counts :
  generate_markdown [] (JObj ∅) (JObj ∅) =
    Ok (String.concat (String "010"%char "")
          ["### Summary"; ""; "âšª 0 unchanged"; "";
           "### Details"; "";
           "| Benchmark | Baseline | Current | Change |";
           "|-----------|----------|---------|--------|";
           ""; "<details>"; "<summary>Run Information</summary>"; "";
           "- Baseline: unknown @ unknown"; "- Current: unknown @ unknown";
           ""; "</details>"]).
Proof. vm_compute. reflexivity. Qed.

(** ** C8: durations *)

(** C8.  The examples of the specification, evaluated: 999, 2500000 and
    3000000000 render as stated; 1500 renders with the suffix the source
    spells with the four bytes C3 82 C2 B5 before the [s], not with the
    micro sign of ["1.50µs"]. *)
Theorem format_duration_examples :
  format_duration (JInt 999) = Ok "999ns" ∧
  format_duration (JInt 2500000) = Ok "2.50ms" ∧
  format_duration (JInt 3000000000) = Ok "3.00s" ∧
  format_duration (JInt 1500) = Ok "1.50Âµs" ∧
  format_duration (JInt 1500) ≠ Ok "1.50µs".
Proof.
  repeat split; by vm_compute.
Qed.

(** ** C9: determinism *)

(** C9.  Two runs of the script differ at most in the order in which a set
    of names is iterated (string hashes are salted per process).  Whatever
    the two orders, the rendered report, the files written, the lines
    printed and the way the process ends are the same. *)
Theorem report_deterministic so1 so2 loads args w bdoc cdoc t :
  enumerates so1 → enumerates so2 →
  render so1 bdoc cdoc t = render so2 bdoc cdoc t ∧
  main loads so1 args w = main loads so2 args w.
Proof.
  intros H1 H2. split.
  - unfold render. by rewrite (compare_benchmarks_order_irrelevant so1 so2 _ _ _ H1 H2).
  - unfold main, prepare.
    destruct (load_results loads w (args_baseline args)) as [b| |]; simpl; try done.
    destruct (load_results loads w (args_current args)) as [c| |]; simpl; try done.
    by rewrite (compare_benchmarks_order_irrelevant so1 so2 _ _ _ H1 H2).
Qed.

Lemma report_deterministic_witness :
  render elements ex_baseline ex_current f10 =
    render elements_rev ex_baseline ex_current f10 ∧
  main ex_loads elements (ex_args true) ex_world =
    main ex_loads elements_rev (ex_args true) ex_world.
Proof.
  exact (report_deterministic elements elements_rev ex_loads (ex_args true)
           ex_world ex_baseline ex_current f10
           enumerates_elements enumerates_elements_rev).
Defined.

(** ** C10: the references of a record *)

(** C10.  In every record of a run the baseline reference is absent exactly
    when the status is [new], the current reference is absent exactly when
    the status is [removed], and a record that is a regression, an
    improvement or unchanged refers to the entries of its name in the two
    documents. *)
Theorem comparator_references so bdoc cdoc t recs r :
  enumerates so →
  compare_benchmarks so bdoc cdoc t = Ok recs →
  r ∈ recs →
  (baseline r = JNull ↔ status r = new) ∧
  (current r = JNull ↔ status r = removed) ∧
  (status r = regression ∨ status r = improvement ∨ status r = unchanged →
   baseline r ≠ JNull ∧ current r ≠ JNull ∧
   entry (items bdoc) (name r) = Some (baseline r) ∧
   entry (items cdoc) (name r) = Some (current r)).
Proof.
  intros Hso H Hr.
  destruct (record_cases _ _ _ _ _ _ Hso H Hr)
    as [(Hb & d2 & Hc & Heq)|[(d1 & Hb & Hc & Heq)|(d1 & d2 & ch & Hb & Hc & Hch & Heq)]];
    destruct r as [n st b c ch']; simpl in *; simplify_eq.
  - split; [done|]. split; [done|]. intros [?|[?|?]]; discriminate.
  - split; [done|]. split; [done|]. intros [?|[?|?]]; discriminate.
  - destruct (classify_cases ch t) as [E|[E|E]]; rewrite E; by repeat split.
Qed.

Lemma comparator_references_witness :
  let r := ex_record 0 in
  (baseline r = JNull ↔ status r = new) ∧
  (current r = JNull ↔ status r = removed) ∧
  (status r = regression ∨ status r = improvement ∨ status r = unchanged →
   baseline r ≠ JNull ∧ current r ≠ JNull ∧
   entry (items ex_baseline) (name r) = Some (baseline r) ∧
   entry (items ex_current) (name r) = Some (current r)).
Proof.
  apply (comparator_references elements ex_baseline ex_current f10 ex_records
           (ex_record 0) enumerates_elements ex_records_eq).
  apply ex_record_in. lia.
Defined.

(** * Further properties of the code *)

(** ** What [calculate_change] and the comparator raise *)






(** X2.  [calculate_change] raises [TypeError] exactly when the baseline
    is not equal to zero and one of the two values is not a number; with a
    baseline equal to zero the current value is never looked at. *)
Theorem calculate_change_type_error bm cm :
  calculate_change bm cm = Raise TypeError ↔
  py_eq_zero bm = false ∧ (as_number bm = None ∨ as_number cm = None).
Proof.
  split.
  - intros H. destruct (py_eq_zero bm) eqn:Hz.
    { by rewrite calculate_change_zero in H. }
    split; [done|].
    destruct (as_number bm) as [b|] eqn:Hb; [|by left].
    destruct (as_number cm) as [c|] eqn:Hc; [|by right].
    pose proof (calculate_change_numbers bm cm) as Hn.
    rewrite H in Hn. simpl in Hn. unfold overflow in Hn.
    discriminate Hn; by eexists.
  - intros [Hz H]. unfold calculate_change, operand. rewrite Hz.
    destruct (as_number cm) as [c|]; [|done].
    destruct H as [-> | H]; done.
Qed.


Example zero_means_guarded :
  ∃ recs, compare_benchmarks elements ex_zero_means ex_ones f10 = Ok recs ∧
          change_percent <$> recs = [PInt 0; PInt 0; PInt 0; PInt 0].
Proof. eexists. split; vm_compute; reflexivity. Qed.

Lemma calculate_change_type_error_witness :
  calculate_change (JInt 5) (JStr "fast") = Raise TypeError.
Proof.
  apply calculate_change_type_error. split; [by vm_compute|]. right. by vm_compute.
Defined.

Lemma ex_current_well_formed : well_formed is_number ex_current.
Proof.
  split.
  - eexists. split; [done|]. right. eexists. by vm_compute.
  - assert (items ex_current =
            [bench "idle" 5; bench "parse" 1150000; bench "emit" 1500;
             bench "fresh" 3000000000]) as -> by (by vm_compute).
    repeat (apply Forall_cons_2; [split; [eexists; by vm_compute|]|]);
      try apply Forall_nil_2; unfold mean_ok; simpl;
      rewrite lookup_insert_ne, lookup_insert_eq by done; by eexists.
Qed.

(** X3.  On two well-formed documents (an object whose ['benchmarks'] is
    missing or a list of objects, each with a string ['name'] and a
    ['mean_ns'] that is missing or a number) the comparator returns its
    records, unless an int or a quotient of ints leaves the range of
    floats, which raises [OverflowError]; when every mean is a float it
    always returns. *)
Theorem comparator_returns_when_well_formed so bdoc cdoc t :
  (well_formed is_number bdoc → well_formed is_number cdoc →
   returns_or_raises overflow (compare_benchmarks so bdoc cdoc t)) ∧
  (well_formed is_float bdoc → well_formed is_float cdoc →
   ∃ recs, compare_benchmarks so bdoc cdoc t = Ok recs).
Proof.
  split.
  - apply comparator_returns_on_numbers.
  - apply comparator_returns_on_floats.
Qed.

Lemma comparator_returns_when_well_formed_witness :
  returns_or_raises overflow (compare_benchmarks elements ex_baseline ex_current f10) ∧
  ∃ recs, compare_benchmarks elements ex_float_run ex_float_run f10 = Ok recs.
Proof.
  split.
  - apply (comparator_returns_when_well_formed elements ex_baseline ex_current f10).
    + apply ex_baseline_well_formed.
    + apply ex_current_well_formed.
  - apply (comparator_returns_when_well_formed elements ex_float_run ex_float_run f10);
      apply ex_float_run_well_formed.
Defined.

(** ** The threshold *)

Lemma for_each_map_Ok {A B} (R : B → B → Prop) (f g : A → outcome B) l ys :
  (∀ x y, f x = Ok y → ∃ z, g x = Ok z ∧ R y z) →
  for_each f l = Ok ys →
  ∃ zs, for_each g l = Ok zs ∧ Forall2 R ys zs.
Proof.
  intros Hfg. revert ys. induction l as [|x l IH]; intros ys H; simpl in *.
  - injection H as <-. exists []. by split.
  - ok_inv H. subst ys.
    destruct (Hfg _ _ Ha) as (z & -> & Hz).
    destruct (IH _ Ha0) as (zs & -> & Hzs).
    exists (z :: zs). split; [done|]. by constructor.
Qed.

Lemma compare_name_threshold bb cb t1 t2 n r1 :
  compare_name bb cb t1 n = Ok r1 →
  ∃ r2, compare_name bb cb t2 n = Ok r2 ∧ same_measurement r1 r2.
Proof.
  unfold compare_name.
  destruct (is_none (get_or_none bb n)).
  { intros [= <-]. eexists. split; [done|]. by repeat split. }
  destruct (is_none (get_or_none cb n)).
  { intros [= <-]. eexists. split; [done|]. by repeat split. }
  intros H. ok_inv H. rewrite Ha, Ha0. simpl. rewrite Ha1. simpl. subst r1.
  eexists. split; [done|]. unfold same_measurement. simpl.
  do 4 (split; [done|]).
  destruct (classify_cases a1 t1) as [-> | [-> | ->]],
           (classify_cases a1 t2) as [-> | [-> | ->]]; by split.
Qed.

(** X4.  The threshold decides nothing but the status: if the comparator
    returns for one threshold it returns for every other, with records
    that carry the same names, references and changes in the same order
    and are [new] or [removed] at the same places. *)
Theorem threshold_only_sets_status so bdoc cdoc t1 t2 recs1 :
  compare_benchmarks so bdoc cdoc t1 = Ok recs1 →
  ∃ recs2, compare_benchmarks so bdoc cdoc t2 = Ok recs2 ∧
           Forall2 same_measurement recs1 recs2.
Proof.
  unfold compare_benchmarks. intros H. ok_inv H. rewrite Ha, Ha0. simpl.
  eapply for_each_map_Ok; [|exact H].
  intros n r1. apply compare_name_threshold.
Qed.

Lemma threshold_only_sets_status_witness :
  ∃ recs2, compare_benchmarks elements ex_baseline ex_current f_minus10 = Ok recs2 ∧
           Forall2 same_measurement ex_records recs2.
Proof.
  exact (threshold_only_sets_status elements ex_baseline ex_current f10 f_minus10
           ex_records ex_records_eq).
Defined.

(** Decide a goal about [SFcompare] on floats taken apart by cases. *)
Ltac fcmp :=
  repeat match goal with
  | H : context [PosDef.Pos.compare_cont Eq ?a ?b] |- _ =>
      change (PosDef.Pos.compare_cont Eq a b) with (Pos.compare a b) in *
  | |- context [PosDef.Pos.compare_cont Eq ?a ?b] =>
      change (PosDef.Pos.compare_cont Eq a b) with (Pos.compare a b) in *
  end;
  repeat match goal with
  | H : context [(?a ?= ?b)%Z] |- _ =>
      destruct (Z.compare_spec a b); simpl in H; try discriminate H
  | H : context [(?a ?= ?b)%positive] |- _ =>
      destruct (Pos.compare_spec a b); simpl in H; try discriminate H
  end;
  repeat match goal with
  | |- context [(?a ?= ?b)%Z] => destruct (Z.compare_spec a b); simpl
  | |- context [(?a ?= ?b)%positive] => destruct (Pos.compare_spec a b); simpl
  end;
  try done; try lia.

Lemma SFcompare_gt_le (f a b : float) :
  SFleb a b = true → SFcompare f b = Some Gt → SFcompare f a = Some Gt.
Proof.
  unfold SFleb.
  destruct f as [[]|[]| |[] mf ef], a as [[]|[]| |[] ma ea], b as [[]|[]| |[] mb eb];
    simpl; try done; intros H1 H2; fcmp.
Qed.

Lemma SFcompare_lt_le (f a b : float) :
  SFleb a b = true → SFcompare f a = Some Lt → SFcompare f b = Some Lt.
Proof.
  unfold SFleb.
  destruct f as [[]|[]| |[] mf ef], a as [[]|[]| |[] ma ea], b as [[]|[]| |[] mb eb];
    simpl; try done; intros H1 H2; fcmp.
Qed.

Lemma SFleb_opp (a b : float) :
  SFleb a b = true → SFleb (SFopp b) (SFopp a) = true.
Proof.
  unfold SFleb.
  destruct a as [[]|[]| |[] ma ea], b as [[]|[]| |[] mb eb];
    simpl; try done; intros H1; fcmp.
Qed.

Lemma f64_negative_le (a b : float) :
  SFleb a b = true → f64_negative b = true → f64_negative a = true.
Proof.
  unfold SFleb, f64_negative.
  destruct a as [[]|[]| |[] ma ea], b as [[]|[]| |[] mb eb]; simpl; done.
Qed.

Lemma classify_monotone ch t1 t2 :
  ch = PInt 0 ∨ (∃ f, ch = PFloat f) →
  SFleb t1 t2 = true →
  (classify ch t2 = regression → classify ch t1 = regression) ∧
  (classify ch t1 = unchanged → classify ch t2 = unchanged).
Proof.
  intros [-> | [f ->]] Hle.
  - rewrite !classify_zero.
    destruct (f64_negative t2) eqn:H2.
    + by rewrite (f64_negative_le _ _ Hle H2).
    + by destruct (f64_negative t1).
  - destruct (classify_spec (PFloat f) t1) as (Hr1 & _ & Hu1).
    destruct (classify_spec (PFloat f) t2) as (Hr2 & _ & Hu2).
    assert (num_gtb (PFloat f) (PFloat t2) = true →
            num_gtb (PFloat f) (PFloat t1) = true) as Hgt.
    { unfold num_gtb, num_compare.
      destruct (SFcompare f t2) as [[]|] eqn:E; try done. intros _.
      by rewrite (SFcompare_gt_le _ _ _ Hle E). }
    assert (num_ltb (PFloat f) (PFloat (SFopp t2)) = true →
            num_ltb (PFloat f) (PFloat (SFopp t1)) = true) as Hlt.
    { unfold num_ltb, num_compare.
      destruct (SFcompare f (SFopp t2)) as [[]|] eqn:E; try done. intros _.
      by rewrite (SFcompare_lt_le _ _ _ (SFleb_opp _ _ Hle) E). }
    split.
    + rewrite Hr1, Hr2. exact Hgt.
    + rewrite Hu1, Hu2. intros [H1 H2]. split.
      * destruct (num_gtb (PFloat f) (PFloat t2)); [|done].
        by rewrite Hgt in H1.
      * destruct (num_ltb (PFloat f) (PFloat (SFopp t2))); [|done].
        by rewrite Hlt in H2.
Qed.

Lemma compare_name_monotone bb cb t1 t2 n r1 r2 :
  SFleb t1 t2 = true →
  compare_name bb cb t1 n = Ok r1 → compare_name bb cb t2 n = Ok r2 →
  (status r2 = regression → status r1 = regression) ∧
  (status r1 = unchanged → status r2 = unchanged).
Proof.
  intros Hle. unfold compare_name.
  destruct (is_none (get_or_none bb n)).
  { intros [= <-] [= <-]. simpl. by split. }
  destruct (is_none (get_or_none cb n)).
  { intros [= <-] [= <-]. simpl. by split. }
  intros H1 H2. ok_inv H1. rewrite Ha, Ha0 in H2. simpl in H2.
  rewrite Ha1 in H2. simpl in H2. injection H2 as <-. subst r1. simpl.
  apply classify_monotone; [|done]. by eapply calculate_change_shape.
Qed.

Lemma Forall2_same_index {A B C} (P : A → B → Prop) (Q : A → C → Prop)
    (R : B → C → Prop) (l : list A) (ys : list B) (zs : list C) :
  (∀ x y z, P x y → Q x z → R y z) →
  Forall2 P l ys → Forall2 Q l zs → Forall2 R ys zs.
Proof.
  intros HR H. revert zs. induction H as [|x y l ys Hxy _ IH]; intros zs Hz.
  - inversion Hz. constructor.
  - inversion Hz as [|? z ? zs' Hxz Hzs]; subst. constructor; eauto.
Qed.

(** X5.  Raising the threshold never adds a finding: of two runs of the
    comparator on the same documents, the one with the larger threshold
    reports a regression only where the other does, and leaves unchanged
    every record the other leaves unchanged. *)
Theorem larger_threshold_fewer_findings so bdoc cdoc t1 t2 recs1 recs2 :
  SFleb t1 t2 = true →
  compare_benchmarks so bdoc cdoc t1 = Ok recs1 →
  compare_benchmarks so bdoc cdoc t2 = Ok recs2 →
  Forall2 (λ r1 r2, name r1 = name r2 ∧
                    (status r2 = regression → status r1 = regression) ∧
                    (status r1 = unchanged → status r2 = unchanged))
          recs1 recs2.
Proof.
  intros Hle. unfold compare_benchmarks. intros H1 H2.
  ok_inv H1. rewrite Ha, Ha0 in H2. simpl in H2.
  apply for_each_Ok in H1, H2.
  eapply Forall2_same_index; [|exact H1|exact H2].
  intros n r1 r2 Hr1 Hr2. split.
  - by rewrite (compare_name_name _ _ _ _ _ Hr1), (compare_name_name _ _ _ _ _ Hr2).
  - exact (compare_name_monotone _ _ _ _ _ _ _ Hle Hr1 Hr2).
Qed.

Lemma larger_threshold_fewer_findings_witness :
  Forall2 (λ r1 r2, name r1 = name r2 ∧
                    (status r2 = regression → status r1 = regression) ∧
                    (status r1 = unchanged → status r2 = unchanged))
          ex_records ex_records_15.
Proof.
  apply (larger_threshold_fewer_findings elements ex_baseline ex_current f10 f15).
  - by vm_compute.
  - exact ex_records_eq.
  - by vm_compute.
Defined.

(** ** A run compared with itself *)

Lemma for_each_Ok_Forall {A B} (P : B → Prop) (f : A → outcome B) (l : list A) :
  (∀ x, x ∈ l → ∃ y, f x = Ok y ∧ P y) →
  ∃ ys, for_each f l = Ok ys ∧ Forall P ys.
Proof.
  induction l as [|x l IH]; intros H; simpl.
  - exists []. by split.
  - destruct (H x) as (y & -> & Hy); [by left|].
    destruct IH as (ys & -> & Hys); [intros; apply H; by right|].
    exists (y :: ys). split; [done|]. by constructor.
Qed.

(** The change of a value against itself is 0, a float zero or NaN. *)
Lemma calculate_change_self v n :
  as_number v = Some n →
  ∃ ch, calculate_change v v = Ok ch ∧
        (ch = PInt 0 ∨ ch = PFloat S754_nan ∨ ∃ s, ch = PFloat (S754_zero s)).
Proof.
  intros Hn. destruct (py_eq_zero v) eqn:Hz.
  { exists (PInt 0). split; [by apply calculate_change_zero|by left]. }
  pose proof (py_eq_zero_false _ _ Hn Hz) as Hnz.
  unfold calculate_change, operand. rewrite Hz, Hn. simpl.
  destruct n as [z|f].
  - simpl in Hnz. unfold num_sub. simpl. rewrite Z.sub_diag.
    unfold num_truediv, int_truediv. rewrite Hnz. simpl.
    destruct z as [|p|p]; [done| |]; simpl;
      (eexists; split; [reflexivity|]; right; right; by eexists).
  - simpl in Hnz. unfold num_sub. simpl.
    destruct f as [s|[]| |s m e]; try done; simpl;
      try (eexists; split; [reflexivity|]; right; by left).
    unfold f64_sub, SFsub. rewrite Z.sub_diag. simpl.
    eexists; split; [reflexivity|]. right. right. by eexists.
Qed.

Lemma classify_zero_or_nan ch t :
  f64_negative t = false →
  ch = PInt 0 ∨ ch = PFloat S754_nan ∨ (∃ s, ch = PFloat (S754_zero s)) →
  classify ch t = unchanged.
Proof.
  intros Ht [-> | [-> | [s ->]]].
  - by rewrite classify_zero, Ht.
  - done.
  - revert Ht. unfold classify, f64_negative, num_gtb, num_ltb, num_compare.
    by destruct t as [[]|[]| |[] m e].
Qed.

(** X6.  A well-formed run compared with itself, at a threshold that is
    not negative, always returns, and every record is [unchanged], with
    both references to the same entry; this holds for every numeric mean,
    infinities and NaN included. *)
Theorem self_comparison_unchanged so doc t :
  enumerates so → well_formed is_number doc → f64_negative t = false →
  ∃ recs, compare_benchmarks so doc doc t = Ok recs ∧
          Forall (λ r, status r = unchanged ∧ baseline r = current r) recs.
Proof.
  intros Hso Hwf Ht.
  destruct (benchmarks_by_name_total _ _ Hwf) as [bb Hbb].
  unfold compare_benchmarks. rewrite Hbb. simpl.
  apply for_each_Ok_Forall. intros n Hn.
  apply (sorted_spec so _ Hso) in Hn.
  rewrite elem_of_union, !elem_of_dom in Hn.
  assert (is_Some (bb !! n)) as [b Hb] by (by destruct Hn).
  destruct (well_formed_entry _ _ _ _ _ Hwf Hbb Hb) as (d & -> & Hmean).
  assert (∃ m, as_number (default (JInt 0) (d !! "mean_ns")) = Some m) as [m Hm].
  { destruct Hmean as [-> | [m Hm]]; by eexists. }
  destruct (calculate_change_self _ _ Hm) as (ch & Hch & Hshape).
  unfold compare_name, get_or_none. rewrite Hb. simpl. rewrite Hch. simpl.
  eexists. split; [done|]. simpl. split; [|done].
  by apply classify_zero_or_nan.
Qed.

Lemma self_comparison_unchanged_witness :
  ∃ recs, compare_benchmarks elements ex_baseline ex_baseline f10 = Ok recs ∧
          Forall (λ r, status r = unchanged ∧ baseline r = current r) recs.
Proof.
  apply (self_comparison_unchanged elements ex_baseline f10).
  - exact enumerates_elements.
  - exact ex_baseline_well_formed.
  - by vm_compute.
Defined.

(** ** The direction of a change *)

(** Rounding keeps the sign it is given. *)
Lemma binary_round_aux_sign (sx : bool) (mx ex : Z) (lx : location) :
  match binary_round_aux 53 1024 sx mx ex lx with
  | S754_nan => True
  | S754_zero s | S754_infinity s | S754_finite s _ _ => s = sx
  end.
Proof.
  unfold binary_round_aux.
  destruct (shr_fexp 53 1024 mx ex lx) as [mrs' e'].
  destruct (shr_fexp 53 1024 _ e' loc_Exact) as [mrs'' e''].
  destruct (shr_m mrs''); [done| |done].
  by destruct (e'' <=? 1024 - 53)%Z.
Qed.

(** The quotient of two ints has the sign of the exact quotient. *)
Lemma int_quotient_sign (d b : Z) :
  (0 < b)%Z →
  ((d ≤ 0)%Z → not_positive (f64_div (exact_Z d) (exact_Z b))) ∧
  ((0 ≤ d)%Z → not_negative (f64_div (exact_Z d) (exact_Z b))).
Proof.
  intros Hb. destruct b as [|pb|pb]; try lia.
  destruct d as [|pd|pd]; cbn [exact_Z]; unfold f64_div, SFdiv.
  - by split.
  - destruct (SFdiv_core_binary 53 1024 (Z.pos pd) 0 (Z.pos pb) 0) as [[mz ez] lz].
    pose proof (binary_round_aux_sign (xorb false false) mz ez lz) as H.
    split; [lia|]. intros _.
    by destruct (binary_round_aux 53 1024 (xorb false false) mz ez lz).
  - destruct (SFdiv_core_binary 53 1024 (Z.pos pd) 0 (Z.pos pb) 0) as [[mz ez] lz].
    pose proof (binary_round_aux_sign (xorb true false) mz ez lz) as H.
    split; [|lia]. intros _.
    by destruct (binary_round_aux 53 1024 (xorb true false) mz ez lz).
Qed.

(** Multiplying by 100.0 keeps the sign. *)
Lemma times_100_sign (q : float) :
  (not_positive q → not_positive (f64_mul q f100)) ∧
  (not_negative q → not_negative (f64_mul q f100)).
Proof.
  unfold f100, f64_mul.
  destruct q as [s|s| |s m e]; cbn [SFmul not_positive not_negative].
  - by split.
  - destruct s; by split.
  - by split.
  - match goal with
    | |- context [binary_round_aux 53 1024 ?sx ?mx ?ex ?lx] =>
        pose proof (binary_round_aux_sign sx mx ex lx) as H;
        destruct (binary_round_aux 53 1024 sx mx ex lx)
    end; destruct s; simpl in *; split; intros; subst; done.
Qed.

Lemma not_positive_no_regression (f t : float) :
  not_positive f → f64_negative t = false → classify (PFloat f) t ≠ regression.
Proof.
  intros Hf Ht Hc. apply classify_spec in Hc. revert Hf Ht Hc.
  unfold not_positive, f64_negative, num_gtb, num_compare.
  destruct f as [[]|[]| |[] mf ef], t as [[]|[]| |[] m e]; simpl; try done.
Qed.

Lemma not_negative_no_improvement (f t : float) :
  not_negative f → f64_negative t = false → classify (PFloat f) t ≠ improvement.
Proof.
  intros Hf Ht Hc. apply classify_spec in Hc as [_ Hc]. revert Hf Ht Hc.
  unfold not_negative, f64_negative, num_ltb, num_compare.
  destruct f as [[]|[]| |[] mf ef], t as [[]|[]| |[] m e]; simpl; try done.
Qed.

(** The change of two int means, the baseline above zero. *)
Lemma calculate_change_ints (zb zc : Z) (ch : number) :
  (0 < zb)%Z →
  calculate_change (JInt zb) (JInt zc) = Ok ch →
  ch = PFloat (f64_mul (f64_div (exact_Z (zc - zb)) (exact_Z zb)) f100).
Proof.
  intros Hb. unfold calculate_change, py_eq_zero, num_eqb. simpl.
  destruct (Z.compare_spec zb 0); try lia.
  simpl. unfold int_truediv. destruct (Z.eqb_spec zb 0); [lia|].
  destruct (f64_div _ _) eqn:E; simpl; try done; by intros [= <-].
Qed.

(** X7.  The direction of a change is respected: for a benchmark present
    in both runs with int means, the baseline above zero, and a threshold
    that is not negative, a current mean that is not above the baseline is
    never reported as a regression and one that is not below it is never
    reported as an improvement, however the quotient is rounded. *)
Theorem direction_respected so bdoc cdoc t recs n b c zb zc r :
  enumerates so →
  compare_benchmarks so bdoc cdoc t = Ok recs →
  entry (items bdoc) n = Some b → entry (items cdoc) n = Some c →
  mean_ns b = JInt zb → mean_ns c = JInt zc → (0 < zb)%Z →
  f64_negative t = false →
  r ∈ recs → name r = n →
  ((zc ≤ zb)%Z → status r ≠ regression) ∧
  ((zb ≤ zc)%Z → status r ≠ improvement).
Proof.
  intros Hso H Hb Hc Hmb Hmc Hpos Ht Hr Hn.
  destruct (record_of_both _ _ _ _ _ _ _ _ Hso H Hb Hc) as [_ Hall].
  destruct (Hall r Hr Hn) as (ch & Hch & ->). simpl.
  rewrite Hmb, Hmc in Hch.
  rewrite (calculate_change_ints _ _ _ Hpos Hch).
  destruct (int_quotient_sign (zc - zb) zb Hpos) as [Hle Hge].
  destruct (times_100_sign (f64_div (exact_Z (zc - zb)) (exact_Z zb))) as [Hm1 Hm2].
  split; intros Hz.
  - apply not_positive_no_regression; [|done]. apply Hm1, Hle. lia.
  - apply not_negative_no_improvement; [|done]. apply Hm2, Hge. lia.
Qed.

Lemma direction_respected_witness :
  ((1500 ≤ 2000)%Z → status (ex_record 0) ≠ regression) ∧
  ((2000 ≤ 1500)%Z → status (ex_record 0) ≠ improvement).
Proof.
  apply (direction_respected elements ex_baseline ex_current f10 ex_records
           "emit" (bench "emit" 2000) (bench "emit" 1500) 2000 1500 (ex_record 0)
           enumerates_elements ex_records_eq).
  - by vm_compute.
  - by vm_compute.
  - by vm_compute.
  - by vm_compute.
  - lia.
  - by vm_compute.
  - apply ex_record_in. lia.
  - by vm_compute.
Defined.

(** ** The two runs exchanged *)

Lemma index_unique (l : list json) (m1 m2 : gmap string json) :
  (∀ n, m1 !! n = entry l n) → (∀ n, m2 !! n = entry l n) → m1 = m2.
Proof. intros H1 H2. apply map_eq. intros n. by rewrite H1, H2. Qed.

(** X8.  Exchanging baseline and current keeps the names and their order
    and mirrors the records: the references trade places, [new] becomes
    [removed] and [removed] becomes [new]. *)
Theorem runs_exchanged so bdoc cdoc t1 t2 recs1 recs2 :
  enumerates so →
  compare_benchmarks so bdoc cdoc t1 = Ok recs1 →
  compare_benchmarks so cdoc bdoc t2 = Ok recs2 →
  name <$> recs1 = name <$> recs2 ∧
  ∀ r1 r2, r1 ∈ recs1 → r2 ∈ recs2 → name r1 = name r2 →
    baseline r1 = current r2 ∧ current r1 = baseline r2 ∧
    (status r1 = new ↔ status r2 = removed) ∧
    (status r1 = removed ↔ status r2 = new).
Proof.
  intros Hso H1 H2. split.
  - destruct (compare_benchmarks_Ok _ _ _ _ _ H1) as (bb & cb & Hb & Hc & -> & _).
    destruct (compare_benchmarks_Ok _ _ _ _ _ H2) as (cb' & bb' & Hc' & Hb' & -> & _).
    rewrite (index_unique _ _ _ Hb' Hb), (index_unique _ _ _ Hc' Hc).
    by rewrite (union_comm_L (dom cb) (dom bb)).
  - intros r1 r2 Hr1 Hr2 Hn.
    destruct (record_cases _ _ _ _ _ _ Hso H1 Hr1)
      as [(Hb & d2 & Hc & E1)|[(d1 & Hb & Hc & E1)|(d1 & d2 & ch & Hb & Hc & _ & E1)]];
    destruct (record_cases _ _ _ _ _ _ Hso H2 Hr2)
      as [(Hc' & d1' & Hb' & E2)|[(d2' & Hc' & Hb' & E2)|(d2' & d1' & ch' & Hc' & Hb' & _ & E2)]];
    rewrite <- Hn in Hb', Hc'; rewrite Hb in Hb'; rewrite Hc in Hc';
    simplify_eq; rewrite E1, E2; simpl; try done.
    destruct (classify_cases ch t1) as [-> | [-> | ->]],
             (classify_cases ch' t2) as [-> | [-> | ->]]; by repeat split.
Qed.

Lemma runs_exchanged_witness :
  let recs2 := returned (compare_benchmarks elements ex_current ex_baseline f10) in
  name <$> ex_records = name <$> recs2 ∧
  ∀ r1 r2, r1 ∈ ex_records → r2 ∈ recs2 → name r1 = name r2 →
    baseline r1 = current r2 ∧ current r1 = baseline r2 ∧
    (status r1 = new ↔ status r2 = removed) ∧
    (status r1 = removed ↔ status r2 = new).
Proof.
  apply (runs_exchanged elements ex_baseline ex_current f10 f10).
  - exact enumerates_elements.
  - exact ex_records_eq.
  - by vm_compute.
Defined.

(** ** Malformed documents *)

Lemma by_name_first_bad (good : list json) (bad : json) (rest : list json)
    (acc : gmap string json) (e : exn) :
  Forall (λ b, is_Some (name_of b)) good →
  (subscript_name bad ≫= dict_key) = Raise e →
  by_name (good ++ bad :: rest) acc = Raise e.
Proof.
  intros Hgood Hbad. revert acc.
  induction Hgood as [|b good [n Hn] _ IH]; intros acc; simpl.
  - destruct (subscript_name bad) as [v|e0|]; simpl in *;
      [by rewrite Hbad|by injection Hbad as ->|done].
  - destruct b as [| | | | | |d]; simpl in Hn; try discriminate.
    simpl. destruct (d !! "name") as [[| | | |s| |]|]; try discriminate.
    simpl. apply IH.
Qed.

(** X9.  What a malformed baseline costs: a document that is not an object
    raises [AttributeError]; in the list of benchmarks, the first entry
    that does not file under a string name decides, with [KeyError] when
    it is an object without ['name'], [TypeError] when it is not an object
    and [TypeError] when its name is a list or an object. *)
Theorem malformed_baseline so doc d other t good bad rest :
  (¬ is_object doc → compare_benchmarks so doc other t = Raise AttributeError) ∧
  (d !! "benchmarks" = Some (JArr (good ++ bad :: rest)) →
   Forall (λ b, is_Some (name_of b)) good →
   ((∃ db, bad = JObj db ∧ db !! "name" = None) →
    compare_benchmarks so (JObj d) other t = Raise KeyError) ∧
   (¬ is_object bad →
    compare_benchmarks so (JObj d) other t = Raise TypeError) ∧
   ((∃ db v, bad = JObj db ∧ db !! "name" = Some v ∧ unhashable v) →
    compare_benchmarks so (JObj d) other t = Raise TypeError)).
Proof.
  split.
  - intros Hd. unfold compare_benchmarks, benchmarks_by_name.
    by destruct doc.
  - intros Hd Hgood.
    assert (∀ e, (subscript_name bad ≫= dict_key) = Raise e →
                 compare_benchmarks so (JObj d) other t = Raise e) as Hbad.
    { intros e He. unfold compare_benchmarks, benchmarks_by_name. simpl.
      rewrite Hd. simpl. by rewrite (by_name_first_bad _ _ _ _ _ Hgood He). }
    split; [|split].
    + intros (db & -> & Hn). apply Hbad. simpl. by rewrite Hn.
    + intros Hb. apply Hbad. by destruct bad.
    + intros (db & v & -> & Hn & Hv). apply Hbad. simpl. rewrite Hn. simpl.
      by destruct v.
Qed.

Lemma malformed_baseline_witness :
  compare_benchmarks elements (JArr []) ex_current f10 = Raise AttributeError ∧
  compare_benchmarks elements ex_nameless ex_current f10 = Raise KeyError ∧
  compare_benchmarks elements ex_stray_number ex_current f10 = Raise TypeError.
Proof.
  split; [|split].
  - destruct (malformed_baseline elements (JArr []) ∅ ex_current f10 [] JNull [])
      as [H _].
    apply H. simpl. tauto.
  - destruct (malformed_baseline elements JNull
             (list_to_map [("version", JStr "v");
                           ("benchmarks", JArr ([bench "parse" 7] ++
                              JObj (list_to_map [("mean_ns", JInt 3)]) :: [bench "emit" 9]))])
             ex_current f10 [bench "parse" 7]
             (JObj (list_to_map [("mean_ns", JInt 3)])) [bench "emit" 9]) as [_ H].
    destruct H as (H & _ & _).
    + by vm_compute.
    + apply Forall_cons_2; [|apply Forall_nil_2]. eexists. by vm_compute.
    + apply H. eexists. split; [done|]. by vm_compute.
  - destruct (malformed_baseline elements JNull
             (list_to_map [("version", JStr "v");
                           ("benchmarks", JArr ([bench "parse" 7] ++ JInt 3 :: [bench "emit" 9]))])
             ex_current f10 [bench "parse" 7] (JInt 3) [bench "emit" 9]) as [_ H].
    destruct H as (_ & H & _).
    + by vm_compute.
    + apply Forall_cons_2; [|apply Forall_nil_2]. eexists. by vm_compute.
    + apply H. simpl. tauto.
Defined.

(** ** The two formatters *)

Lemma num_truediv_by_float n f c :
  to_float n = Ok f → f64_is_zero c = false →
  num_truediv n (PFloat c) = Ok (PFloat (f64_div f c)).
Proof.
  intros Hf Hc. unfold num_truediv, float_truediv.
  destruct n as [z|g]; simpl in *; [rewrite Hf|injection Hf as ->]; simpl;
    by rewrite Hc.
Qed.

Lemma num_truediv_by_float_raise n c e :
  to_float n = Raise e → num_truediv n (PFloat c) = Raise e.
Proof.
  intros Hf. unfold num_truediv. destruct n as [z|g]; simpl in *; [|done].
  by rewrite Hf.
Qed.

Lemma to_float_cases n :
  (∃ f, to_float n = Ok f) ∨ to_float n = Raise OverflowError.
Proof.
  pose proof (to_float_overflow n) as H.
  destruct (to_float n) as [f|e|]; simpl in H; [eauto|right; by rewrite H|done].
Qed.

Lemma formatters_cases v :
  (as_number v = None →
   format_duration v = Raise TypeError ∧ format_throughput v = Raise TypeError) ∧
  (∀ n, as_number v = Some n → to_float n = Raise OverflowError →
   format_duration v = Raise OverflowError ∧
   format_throughput v = Raise OverflowError) ∧
  (∀ n f, as_number v = Some n → to_float n = Ok f →
   ∃ digits units,
     units ∈ unit_suffixes ∧
     format_duration v = Ok (digits +:+ units.1) ∧
     format_throughput v = Ok (digits +:+ units.2)).
Proof.
  unfold format_duration, format_throughput, operand, unit_suffixes.
  split; [|split].
  - by intros ->.
  - intros n -> Hf. simpl.
    rewrite !(num_truediv_by_float_raise _ _ _ Hf).
    unfold format_number. rewrite Hf. simpl.
    by repeat case_match.
  - intros n f -> Hf. simpl.
    rewrite !(num_truediv_by_float _ _ _ Hf) by done.
    unfold format_number. rewrite Hf. simpl.
    destruct (num_geb n (PFloat f1e9)).
    { eexists _, ("s", "G ops/s"). split; [set_solver|]. by split. }
    destruct (num_geb n (PFloat f1e6)).
    { eexists _, ("ms", "M ops/s"). split; [set_solver|]. by split. }
    destruct (num_geb n (PFloat f1e3)).
    { eexists _, ("Âµs", "K ops/s"). split; [set_solver|]. by split. }
    eexists _, ("ns", " ops/s"). split; [set_solver|]. by split.
Qed.

(** X10.  [format_duration] and [format_throughput] fail and succeed
    together: on a value that is not a number both raise [TypeError]; on an
    int too large for a float both raise [OverflowError]; on every other
    number both return, with the same digits and the unit suffixes of the
    same tier. *)
Theorem formatters_agree v :
  (as_number v = None →
   format_duration v = Raise TypeError ∧ format_throughput v = Raise TypeError) ∧
  (∀ n, as_number v = Some n → to_float n = Raise OverflowError →
   format_duration v = Raise OverflowError ∧
   format_throughput v = Raise OverflowError) ∧
  (∀ n f, as_number v = Some n → to_float n = Ok f →
   ∃ digits units,
     units ∈ unit_suffixes ∧
     format_duration v = Ok (digits +:+ units.1) ∧
     format_throughput v = Ok (digits +:+ units.2)).
Proof. exact (formatters_cases v). Qed.

Lemma formatters_agree_witness :
  (format_duration (JStr "fast") = Raise TypeError ∧
   format_throughput (JStr "fast") = Raise TypeError) ∧
  (format_duration (JInt (10 ^ 400)) = Raise OverflowError ∧
   format_throughput (JInt (10 ^ 400)) = Raise OverflowError) ∧
  ∃ digits units,
    units ∈ unit_suffixes ∧
    format_duration (JInt 2500000) = Ok (digits +:+ units.1) ∧
    format_throughput (JInt 2500000) = Ok (digits +:+ units.2).
Proof.
  split; [|split].
  - by apply (formatters_agree (JStr "fast")).
  - apply (formatters_agree (JInt (10 ^ 400))) with (PInt (10 ^ 400)); by vm_compute.
  - destruct (formatters_agree (JInt 2500000)) as (_ & _ & H).
    apply (H (PInt 2500000) (f64_of_Z 2500000)); by vm_compute.
Defined.

Lemma small_ints_checked :
  forallb renders_as_itself (seqZ (-999) 1999) = true.
Proof. by vm_compute. Qed.

(** X11.  An int between -1000 and 1000 is rendered by both formatters as
    its own decimal digits followed by the unit: no rounding and no
    decimal point below the first tier. *)
Theorem small_ints_render_exactly (z : Z) :
  (-1000 < z < 1000)%Z →
  format_duration (JInt z) = Ok (pretty z +:+ "ns") ∧
  format_throughput (JInt z) = Ok (pretty z +:+ " ops/s").
Proof.
  intros Hz.
  pose proof small_ints_checked as H.
  rewrite forallb_forall in H.
  assert (renders_as_itself z = true) as Hr.
  { apply H. apply list_elem_of_In, elem_of_seqZ. lia. }
  unfold renders_as_itself in Hr.
  destruct (format_duration (JInt z)) as [a| |]; try done.
  destruct (format_throughput (JInt z)) as [b| |]; try done.
  apply andb_true_iff in Hr as [Ha Hb].
  apply String.eqb_eq in Ha, Hb. by subst.
Qed.

Lemma small_ints_render_exactly_witness :
  format_duration (JInt 999) = Ok (pretty 999%Z +:+ "ns") ∧
  format_throughput (JInt 999) = Ok (pretty 999%Z +:+ " ops/s").
Proof. apply (small_ints_render_exactly 999). lia. Defined.

(** ** Reports of well-formed runs *)





Section Rendering.
Variable ok_mean : json → Prop.
Variable P : exn → Prop.
Hypothesis fmt_ok :
  ∀ v, v = JInt 0 ∨ ok_mean v → returns_or_raises P (format_duration v).
Hypothesis cmp_ok : ∀ so bdoc cdoc t,
  well_formed ok_mean bdoc → well_formed ok_mean cdoc →
  returns_or_raises P (compare_benchmarks so bdoc cdoc t).



End Rendering.






(** ** The ways [main] ends *)

Lemma format_number_not_exit plus p x : may_raise not_exit (format_number plus p x).
Proof.
  unfold format_number. pose proof (to_float_overflow x) as H.
  destruct (to_float x) as [f|e|]; simpl in *; [done| |done]. by rewrite H.
Qed.

Lemma format_duration_not_exit v : may_raise not_exit (format_duration v).
Proof.
  destruct (formatters_cases v) as (Hnone & Hover & Hok).
  destruct (as_number v) as [n|] eqn:Hn.
  - destruct (to_float_cases n) as [[f Hf]|Hf].
    + destruct (Hok n f eq_refl Hf) as (digits & units & _ & -> & _). done.
    + destruct (Hover n eq_refl Hf) as [-> _]. done.
  - destruct (Hnone eq_refl) as [-> _]. done.
Qed.

Lemma py_get_not_exit o k dflt : may_raise not_exit (py_get o k dflt).
Proof. by destruct o. Qed.

Lemma detail_row_not_exit c : may_raise not_exit (detail_row c).
Proof.
  unfold detail_row.
  destruct (status c);
    repeat (apply may_raise_bind;
            [first [apply py_get_not_exit | apply format_duration_not_exit
                   | apply format_number_not_exit | idtac]|intros ? _]);
    try done;
    (apply may_raise_bind; [apply format_number_not_exit|by intros]).
Qed.

Lemma run_line_not_exit label info : may_raise not_exit (run_line label info).
Proof.
  unfold run_line.
  assert (∀ v, may_raise not_exit (py_str v)) as Hstr.
  { intros [| |z| | | |]; try done. unfold py_str. by destruct (Z.abs z <? _)%Z. }
  apply may_raise_bind; [apply py_get_not_exit|]. intros v _.
  apply may_raise_bind; [apply Hstr|]. intros vs _.
  apply may_raise_bind; [apply py_get_not_exit|]. intros t _.
  apply may_raise_bind; [apply Hstr|]. by intros.
Qed.

Lemma generate_markdown_not_exit comparisons binfo cinfo :
  may_raise not_exit (generate_markdown comparisons binfo cinfo).
Proof.
  unfold generate_markdown, report_lines.
  apply may_raise_bind; [|by intros].
  apply may_raise_bind.
  { apply for_each_may_raise. apply detail_row_not_exit. }
  intros rows _. apply may_raise_bind; [apply run_line_not_exit|]. intros bl _.
  apply may_raise_bind; [apply run_line_not_exit|]. by intros.
Qed.

Lemma load_results_not_exit loads w path : may_raise not_exit (load_results loads w path).
Proof.
  unfold load_results. destruct (fs w !! locate w path) as [n|]; [|done].
  destruct (read_error n) as [k|]; [by destruct k|].
  by destruct (loads (content n)) as [[]|].
Qed.

Lemma prepare_not_exit loads so args w : may_raise not_exit (prepare loads so args w).
Proof.
  unfold prepare.
  apply may_raise_bind; [apply load_results_not_exit|]. intros b _.
  apply may_raise_bind; [apply load_results_not_exit|]. intros c _.
  apply may_raise_bind.
  { eapply may_raise_mono; [|apply comparator_exceptions].
    intros e [-> | [-> | [-> | ->]]]; done. }
  intros recs _.
  apply may_raise_bind; [apply generate_markdown_not_exit|]. by intros.
Qed.

(** What [main] does, case by case: nothing is prepared; [open] fails on
    the output; the report cannot be encoded; the report is written and
    the lines are printed. *)
Lemma main_cases loads so args w :
  (prepare loads so args w = Unmodelled ∧ main loads so args w = (w, Unmodelled))
  ∨ (∃ e, prepare loads so args w = Raise e ∧ not_exit e ∧
          main loads so args w = (w, Raise e))
  ∨ ∃ recs report pcts,
      prepare loads so args w = Ok (recs, report) ∧
      Forall2 (λ r s, format_number false 1 (change_percent r) = Ok s)
              (with_status regression recs) pcts ∧
      ((∃ n k, fs w !! locate w (args_output args) = Some n ∧
               write_error n = Some k ∧
               main loads so args w = (w, Raise (os_exn k)))
       ∨ (writable w (args_output args) ∧ file_encodes w report = false ∧
          ∃ r, main loads so args w =
                 (set_fs (<[locate w (args_output args) := Node "" r None]> (fs w)) w,
                  Raise UnicodeEncodeError))
       ∨ (writable w (args_output args) ∧ file_encodes w report = true ∧
          ∃ r, main loads so args w =
                 and_then
                   (print_lines
                      (script_lines args (with_status regression recs) pcts)
                      (set_fs (<[locate w (args_output args) := Node report r None]>
                                 (fs w)) w))
                   (λ _ w2,
                    (w2, if bool_decide (with_status regression recs ≠ []) &&
                            args_fail_on_regression args
                         then Raise (SystemExit 1) else Ok ())))).
Proof.
  pose proof (prepare_not_exit loads so args w) as Hne.
  destruct (prepare loads so args w) as [[recs report]|e|] eqn:Hp.
  - right. right.
    destruct (prepared_regressions_render _ _ _ _ _ _ Hp) as [pcts Hpcts].
    exists recs, report, pcts. split; [done|]. split; [done|].
    rewrite (main_prepared _ _ _ _ _ _ _ Hp Hpcts).
    destruct (write_file_cases (args_output args) report w)
      as [(n & k & Hn & Hk & ->)|(Hw & r & ->)].
    + left. by exists n, k.
    + right. destruct (file_encodes w report).
      * right. split; [done|]. split; [done|]. by exists r.
      * left. split; [done|]. split; [done|]. by exists r.
  - right. left. exists e. unfold main. by rewrite Hp.
  - left. unfold main. by rewrite Hp.
Qed.

(** Printing and then ending with [fin]: every line is printed and the
    end is [fin], or printing stops at a line that cannot be encoded. *)
Lemma print_then_cases ls w1 (fin : outcome unit) :
  ∃ printed,
    (and_then (print_lines ls w1) (λ _ w2, (w2, fin))).1 =
      set_stdout (stdout w1 ++ printed) w1 ∧
    ((and_then (print_lines ls w1) (λ _ w2, (w2, fin))).2 = fin ∧ printed = ls ∧
     Forall (λ l, stdout_encodes w1 l = true) ls
     ∨ (and_then (print_lines ls w1) (λ _ w2, (w2, fin))).2 = Raise UnicodeEncodeError ∧
       ∃ l rest, ls = printed ++ l :: rest ∧ stdout_encodes w1 l = false).
Proof.
  destruct (print_lines_cases ls w1) as (printed & Hw & Hr). exists printed.
  destruct (print_lines ls w1) as [w' o]. simpl in *. subst w'.
  destruct Hr as [(-> & -> & Hall)|(-> & Hl)]; simpl; [split; [done|]; by left|].
  split; [done|]. by right.
Qed.



(** X13.  A run of the script that ends with an exception is of one of four
    kinds.  Nothing was written or printed: the exception was raised while
    loading, comparing or rendering, or it is the [OSError] of [open] on the
    output path.  Or it is the [UnicodeEncodeError] of a report the locale
    cannot encode: the output file was created or emptied and holds
    nothing, and nothing was printed.  Or it is the [UnicodeEncodeError] of
    a line the standard output cannot encode: the output file holds the
    report.  Or it is [sys.exit(1)]: the output file holds the report, the
    flag is set and at least one record is a regression. *)
Theorem main_failures loads so args w e :
  (main loads so args w).2 = Raise e →
  ((main loads so args w).1 = w ∧
   (prepare loads so args w = Raise e ∨
    ∃ n k, fs w !! locate w (args_output args) = Some n ∧
           write_error n = Some k ∧ e = os_exn k))
  ∨ ∃ recs report,
      prepare loads so args w = Ok (recs, report) ∧
      writable w (args_output args) ∧
      ((e = UnicodeEncodeError ∧ file_encodes w report = false ∧
        file_content (main loads so args w).1 (args_output args) = Some "" ∧
        stdout (main loads so args w).1 = stdout w)
       ∨ (e = UnicodeEncodeError ∧ file_encodes w report = true ∧
          file_content (main loads so args w).1 (args_output args) = Some report ∧
          ∃ printed line,
            stdout (main loads so args w).1 = stdout w ++ printed ∧
            stdout_encodes w line = false)
       ∨ (e = SystemExit 1 ∧ file_encodes w report = true ∧
          file_content (main loads so args w).1 (args_output args) = Some report ∧
          args_fail_on_regression args = true ∧
          ∃ c, c ∈ recs ∧ status c = regression)).
Proof.
  intros H.
  destruct (main_cases loads so args w)
    as [[_ Hm]|[(e' & Hp & _ & Hm)|(recs & report & pcts & Hp & Hpcts &
         [(n & k & Hn & Hk & Hm)|[(Hw & Henc & r & Hm)|(Hw & Henc & r & Hm)]])]];
    rewrite Hm in H |- *.
  - discriminate H.
  - injection H as <-. left. split; [done|]. by left.
  - injection H as <-. left. split; [done|]. right. by exists n, k.
  - injection H as <-. right. exists recs, report. split; [done|]. split; [done|].
    left. split; [done|]. split; [done|]. split; [|done].
    unfold file_content. simpl. by rewrite lookup_insert_eq.
  - right. exists recs, report. split; [done|]. split; [done|]. right.
    destruct (print_then_cases
                (script_lines args (with_status regression recs) pcts)
                (set_fs (<[locate w (args_output args) := Node report r None]> (fs w)) w)
                (if bool_decide (with_status regression recs ≠ []) &&
                    args_fail_on_regression args
                 then Raise (SystemExit 1) else Ok ()))
      as (printed & Hend & Hr).
    assert (file_content
              (and_then
                 (print_lines (script_lines args (with_status regression recs) pcts)
                    (set_fs (<[locate w (args_output args) := Node report r None]>
                               (fs w)) w))
                 (λ _ w2,
                  (w2, if bool_decide (with_status regression recs ≠ []) &&
                          args_fail_on_regression args
                       then Raise (SystemExit 1) else Ok ()))).1
              (args_output args) = Some report) as Hfile.
    { rewrite Hend. unfold file_content. simpl. by rewrite lookup_insert_eq. }
    destruct Hr as [(Hfin & _ & _)|(Hfin & l & rest & _ & Hl)]; rewrite Hfin in H.
    + right. destruct (bool_decide (with_status regression recs ≠ [])) eqn:Hregs;
        destruct (args_fail_on_regression args) eqn:Hflag; simpl in H; try done.
      injection H as <-. split; [done|]. split; [done|]. split; [done|].
      split; [done|].
      apply bool_decide_eq_true in Hregs. by apply with_status_nonempty.
    + injection H as <-. left. split; [done|]. split; [done|]. split; [done|].
      exists printed, l. split; [|done]. by rewrite Hend.
Qed.

Lemma main_failures_witness :
  file_content (main ex_loads elements (ex_args false) ex_ascii_world).1 "comparison.md" =
    Some "".
Proof.
  destruct (main_failures ex_loads elements (ex_args false) ex_ascii_world
              UnicodeEncodeError)
    as [[_ [H|(n & k & H & _)]]|(recs & report & Hp & _ & [H|[H|H]])].
  - by vm_compute.
  - vm_compute in H. discriminate H.
  - vm_compute in H. discriminate H.
  - by destruct H as (_ & _ & H & _).
  - destruct H as (_ & H & _).
    assert (prepare ex_loads elements (ex_args false) ex_ascii_world =
            Ok (ex_prepared false)) as Hq by (vm_compute; reflexivity).
    assert (file_encodes ex_ascii_world (ex_prepared false).2 = false) as Hno
      by (vm_compute; reflexivity).
    rewrite Hq in Hp.
    assert ((ex_prepared false).2 = report) as Hr.
    { apply (f_equal (λ o, match o with Ok p => p.2 | _ => "" end)) in Hp.
      exact Hp. }
    rewrite <- Hr, Hno in H. discriminate H.
  - destruct H as (H & _). discriminate H.
Defined.



(** The output path [./base.json] leads to the baseline file, which the
    run overwrites with the report. *)
Example main_sample_overwrites_baseline :
  file_content ex_world "base.json" = Some "B" ∧
  ∃ report,
    prepare ex_loads elements ex_args_onto_baseline ex_world = Ok (ex_records, report) ∧
    file_content (main ex_loads elements ex_args_onto_baseline ex_world).1 "base.json" =
      Some report.
Proof. split; [by vm_compute|]. eexists. split; by vm_compute. Qed.



(** ** Means that are not a number *)

Lemma calculate_change_nan_baseline cm ch :
  calculate_change (JFloat S754_nan) cm = Ok ch → ch = PFloat S754_nan.
Proof.
  unfold calculate_change, operand. simpl.
  destruct (as_number cm) as [[z|f]|]; simpl; [| |done].
  - destruct (int_to_float z) as [a| |]; simpl; try done.
    destruct a; simpl; intros H; by injection H as <-.
  - destruct f; simpl; intros H; by injection H as <-.
Qed.

Lemma calculate_change_nan_current bm ch :
  calculate_change bm (JFloat S754_nan) = Ok ch →
  ch = PInt 0 ∨ ch = PFloat S754_nan.
Proof.
  unfold calculate_change, operand.
  destruct (py_eq_zero bm); [intros H; injection H as <-; by left|].
  simpl. destruct (as_number bm) as [[z|f]|]; simpl; [| |done].
  - destruct (int_to_float z) as [a| |] eqn:E; simpl; rewrite ?E; simpl; try done.
    destruct a as [s|s| |s m e]; simpl; try done;
      intros H; injection H as <-; by right.
  - destruct f as [s|s| |s m e]; simpl; try done;
      intros H; injection H as <-; by right.
Qed.

(** X16.  A mean that is not a number ([NaN], which [json.load] accepts)
    is never flagged: when the baseline's mean is NaN the record is
    unchanged whatever the threshold and the other mean, and when the
    current mean is NaN it is unchanged under every threshold that is not
    negative. *)
Theorem nan_mean_never_flagged so bdoc cdoc t recs r b c :
  enumerates so →
  compare_benchmarks so bdoc cdoc t = Ok recs → r ∈ recs →
  entry (items bdoc) (name r) = Some b → entry (items cdoc) (name r) = Some c →
  (mean_ns b = JFloat S754_nan → status r = unchanged) ∧
  (mean_ns c = JFloat S754_nan → f64_negative t = false → status r = unchanged).
Proof.
  intros Hso H Hr Hb Hc.
  destruct (record_of_both _ _ _ _ _ _ _ _ Hso H Hb Hc) as [_ Hrec].
  destruct (Hrec r Hr eq_refl) as (ch & Hch & ->). simpl. split.
  - intros Hnan. rewrite Hnan in Hch.
    by rewrite (calculate_change_nan_baseline _ _ Hch).
  - intros Hnan Ht. rewrite Hnan in Hch.
    apply classify_zero_or_nan; [done|].
    destruct (calculate_change_nan_current _ _ Hch) as [-> | ->]; auto.
Qed.

Lemma nan_mean_never_flagged_witness :
  (mean_ns ex_nan_bench = JFloat S754_nan → status ex_nan_record = unchanged) ∧
  (mean_ns ex_nan_bench = JFloat S754_nan → f64_negative f10 = false →
   status ex_nan_record = unchanged).
Proof.
  apply (nan_mean_never_flagged elements ex_nan_run ex_nan_run f10
           [ex_nan_record] ex_nan_record ex_nan_bench ex_nan_bench).
  - apply enumerates_elements.
  - by vm_compute.
  - by left.
  - by vm_compute.
  - by vm_compute.
Defined.

(** ** What the report reads of the run documents *)

Lemma run_line_metadata label doc1 doc2 :
  metadata doc1 = metadata doc2 → run_line label doc1 = run_line label doc2.
Proof.
  unfold run_line.
  destruct doc1 as [| | | | | |d1], doc2 as [| | | | | |d2]; try done.
  simpl. intros H. injection H as -> ->. done.
Qed.

(** X17.  Of the two run documents the reporter reads the ['version'] and
    the ['timestamp'] only: two calls on the same records, with documents
    that agree on these two fields, give the same report or fail alike,
    whatever else the documents hold. *)
Theorem report_reads_metadata_only comparisons b1 b2 c1 c2 :
  metadata b1 = metadata b2 → metadata c1 = metadata c2 →
  generate_markdown comparisons b1 c1 = generate_markdown comparisons b2 c2.
Proof.
  intros Hb Hc. unfold generate_markdown, report_lines.
  by rewrite (run_line_metadata "Baseline" _ _ Hb),
             (run_line_metadata "Current" _ _ Hc).
Qed.

Lemma report_reads_metadata_only_witness :
  generate_markdown ex_records ex_baseline ex_current =
  generate_markdown ex_records ex_baseline_other ex_current.
Proof.
  apply (report_reads_metadata_only ex_records ex_baseline ex_baseline_other
           ex_current ex_current).
  - by vm_compute.
  - reflexivity.
Defined.
